(** * Bootcamp-TS-APIs: the bootcamp and course controllers

    A shallow embedding of [src/controllers/bootcamp.controller.ts] and of
    the course controller, together with the properties of the
    resource-access pipeline (ownership gate, singleton-per-owner creation,
    upload validation and naming, radius conversion, pagination metadata).

    Conventions of the embedding:
    - a JavaScript object (a document, [req.body], [req.params]) is a finite
      map from field names to values;
    - a handler is a computation in a state-and-exception monad over a
      [world]: the database, the log of calls made on the storage layer and
      the trace of calls made on Express ([next(err)], [res.status(c).json(b)]);
    - an [await]ed call that rejects is an exception of the monad, caught by
      the handler's [try { ... } catch];
    - the collaborators that are not part of the repository sources (the
      ODM's casting and validation of a Bootcamp, the geocoder, the file
      sink, Node's [path.parse], the upload configuration) are fields of a
      record [collaborators] over which the handlers are parametrised;
    - numbers: [parseInt] returns an integer or NaN ([None]); the quotient
      [parseInt(distance) / 3963] is kept as an exact rational, so a radius is
      [None] (NaN) or a rational (the rounding of IEEE doubles is not
      modelled).

    The handlers that only forward the result of the pagination middleware
    ([getBootcamps], [getCourses]) and [getBootcamp] are not embedded: no
    property below is about them. *)

From Stdlib Require Import Ascii String ZArith QArith.
From stdpp Require Import gmap strings list.

Local Open Scope string_scope.

(** ** JavaScript values and primitives *)

Module JS.

(** The values handled by the controllers: [undefined], primitive strings, and
    ObjectId objects.  An ObjectId is an object: it carries the identity [ref]
    of the object besides its 24-digit text [hex]. *)
Inductive value :=
| VUndefined
| VString (s : string)
| VObjectId (ref : nat) (hex : string).

#[global] Instance value_eq_dec : EqDecision value.
Proof. solve_decision. Defined.

(** [a === b]: primitives by content, objects by identity, and never across
    types. *)
Definition strict_eq (a b : value) : bool :=
  match a, b with
  | VUndefined, VUndefined => true
  | VString s, VString t => String.eqb s t
  | VObjectId r _, VObjectId r' _ => Nat.eqb r r'
  | _, _ => false
  end.

(** [a !== b] *)
Definition strict_neq (a b : value) : bool := negb (strict_eq a b).

(** Truthiness of a value ([!v] is its negation). *)
Definition truthy (v : value) : bool :=
  match v with
  | VUndefined => false
  | VString s => negb (String.eqb s EmptyString)
  | VObjectId _ _ => true
  end.

(** String conversion, as a template literal [`${v}`] performs it. *)
Definition to_string (v : value) : string :=
  match v with
  | VUndefined => "undefined"
  | VString s => s
  | VObjectId _ hex => hex
  end.

(** [s.startsWith(p)] *)
Definition startsWith (s p : string) : bool := String.prefix p s.

(** [s.includes(p)] *)
Fixpoint includes (s p : string) : bool :=
  String.prefix p s ||
  match s with
  | EmptyString => false
  | String _ s' => includes s' p
  end.

(** *** [parseInt(s)] without a radix

    Leading white space is skipped, a sign is read, a [0x]/[0X] prefix selects
    radix 16, and the longest prefix of digits is converted; NaN ([None]) when
    there is no digit. *)

Definition is_white_space (c : ascii) : bool :=
  let n := nat_of_ascii c in
  ((9 <=? n)%nat && (n <=? 13)%nat) || (n =? 32)%nat.

Fixpoint trim_start (s : string) : string :=
  match s with
  | String c s' => if is_white_space c then trim_start s' else s
  | EmptyString => EmptyString
  end.

Definition digit_value (radix : Z) (c : ascii) : option Z :=
  let n := Z.of_nat (nat_of_ascii c) in
  let d :=
    if (48 <=? n)%Z && (n <=? 57)%Z then Some (n - 48)%Z
    else if (97 <=? n)%Z && (n <=? 122)%Z then Some (n - 87)%Z
    else if (65 <=? n)%Z && (n <=? 90)%Z then Some (n - 55)%Z
    else None in
  match d with
  | Some v => if (v <? radix)%Z then Some v else None
  | None => None
  end.

Fixpoint parse_digits (radix : Z) (s : string) (acc : option Z) : option Z :=
  match s with
  | EmptyString => acc
  | String c s' =>
      match digit_value radix c with
      | Some d => parse_digits radix s' (Some (radix * default 0%Z acc + d)%Z)
      | None => acc
      end
  end.

Definition parseInt (s : string) : option Z :=
  let s1 := trim_start s in
  let '(sign, s2) :=
    match s1 with
    | String "-" r => ((-1)%Z, r)
    | String "+" r => (1%Z, r)
    | _ => (1%Z, s1)
    end in
  let '(radix, s3) :=
    match s2 with
    | String "0" (String "x" r) => (16%Z, r)
    | String "0" (String "X" r) => (16%Z, r)
    | _ => (10%Z, s2)
    end in
  Z.mul sign <$> parse_digits radix s3 None.

(** [a > b] for an integer [a] and a number [b] that may be NaN: every
    comparison with NaN is false. *)
Definition gt_number (a : Z) (b : option Z) : bool :=
  match b with
  | Some m => (m <? a)%Z
  | None => false
  end.

(** [a / d] for a number [a] that may be NaN and a positive literal [d]. *)
Definition div_number (a : option Z) (d : positive) : option Q :=
  (fun n => n # d) <$> a.

End JS.

Import JS.

(** ** Objects, requests, responses *)

(** A JavaScript object: a document of the store, [req.body], a filter. *)
Abbreviation obj := (gmap string value).

(** [o.k] *)
Definition field (o : obj) (k : string) : value := default VUndefined (o !! k).

(** [o?.k], for an [o] that may be [null] *)
Definition opt_field (o : option obj) (k : string) : value :=
  from_option (fun d => field d k) VUndefined o.

(** [!o] is [negb (non_null o)] for a document or [null]. *)
Definition non_null {A : Type} (o : option A) : bool :=
  match o with Some _ => true | None => false end.

(** The principal that the authentication middleware attaches to the
    request: [req.user]. *)
Record principal := { p_id : string; p_role : string }.

(** A file of [req.files] (express-fileupload's [UploadedFile]). *)
Record uploaded_file := {
  f_name : string;
  f_mimetype : string;
  f_size : nat;
  f_data : string;
}.

Record request := {
  params : gmap string string;
  body : obj;
  user : option principal;
  files : option (gmap string uploaded_file);
}.

(** [req.params.k] *)
Definition param (req : request) (k : string) : value :=
  from_option VString VUndefined (params req !! k).

(** [req.user?.id] and [req.user?.role] *)
Definition user_id (req : request) : value :=
  from_option (fun u => VString (p_id u)) VUndefined (user req).
Definition user_role (req : request) : value :=
  from_option (fun u => VString (p_role u)) VUndefined (user req).

(** The exceptions handed to [next]. *)
Inductive exn :=
| NotFoundException (id : value)
| BadRequestException (message : option string)
| InvalidCredentialException (message : string)
| ServerErrorException (message : string).

(** The [data] member of a JSON response. *)
Inductive payload :=
| PNull
| PEmpty
| PText (s : string)
| PDoc (d : obj)
| PDocs (ds : list obj)
| PPopulated (d : obj) (path : string) (sub : option obj).

Record response := {
  status : nat;
  success : bool;
  count : option nat;
  data : payload;
}.

(** What a handler does on Express: [next(e)] and [res.status(c).json(b)]. *)
Inductive event :=
| Next (e : exn)
| Json (r : response).

(** ** The store *)

Inductive model := Bootcamp | Course.

(** The part of a Mongoose schema that the ODM consults when it casts and
    validates a document. *)
Record schema := {
  paths : list string;
  required : list string;
  object_ids : list string;
  enums : list (string * list string);
}.

(** [CourseSchema] of the course model.  Defaults ([scholarshipAvailable],
    [createdAt]) are left out: no handler reads them. *)
Definition CourseSchema : schema := {|
  paths := ["title"; "description"; "weeks"; "tuition"; "minimumSkill";
            "scholarshipAvailable"; "createdAt"; "bootcamp"; "user"];
  required := ["title"; "description"; "weeks"; "tuition"; "minimumSkill";
               "bootcamp"; "user"];
  object_ids := ["bootcamp"; "user"];
  enums := [("minimumSkill", ["beginner"; "intermediate"; "advanced"])];
|}.

Record database := {
  bootcamps : list obj;
  courses : list obj;
  disk : gmap string string;
  next_ref : nat;
}.

(** The calls a handler makes on the storage layer, the geocoder and the file
    sink, with their arguments. *)
Inductive store_call :=
| FindById (m : model) (id : value)
| FindOne (m : model) (filter : obj)
| FindGeoWithin (m : model) (center : Q * Q) (radius : option Q)
| Create (m : model) (doc : obj)
| FindByIdAndUpdate (m : model) (id : value) (update : obj)
| Remove (m : model) (id : value)
| Geocode (address : value)
| Mv (path : string).

Record world := {
  db : database;
  calls : list store_call;
  trace : list event;
}.

(** The collaborators whose code is outside the repository sources. *)
Record collaborators := {
  (** whether the ODM casts this string to an ObjectId (a [CastError] is
      thrown otherwise) *)
  is_object_id : string -> bool;
  (** the text of the [n]-th ObjectId generated by the driver *)
  new_object_id : nat -> string;
  (** the schema of the bootcamp model *)
  BootcampSchema : schema;
  (** [geocoder.geocode(zipcode)]: the [(latitude, longitude)] of each match,
      or [None] when the call rejects *)
  geocoder_geocode : value -> option (list (Q * Q));
  (** the documents of a collection inside [$centerSphere: [center, radius]],
      or [None] when the store rejects the query *)
  geoWithin : list obj -> Q * Q -> option Q -> option (list obj);
  (** Node's [path.parse(p).ext] *)
  path_ext : string -> string;
  (** [uploadConfig.max_file_upload] and [uploadConfig.file_upload_path] *)
  max_file_upload : value;
  file_upload_path : value;
  (** whether [file.mv(path, cb)] calls [cb] with an error *)
  mv_error : string -> bool;
}.

(** ** The monad of handlers: state, with exceptions *)

Definition M (A : Type) : Type := world -> world * option A.

#[global] Instance M_ret : MRet M := fun A a w => (w, Some a).
#[global] Instance M_bind : MBind M := fun A B f m w =>
  match m w with
  | (w', Some a) => f a w'
  | (w', None) => (w', None)
  end.

(** [throw]: a rejected promise or a [TypeError]. *)
Definition throw {A : Type} : M A := fun w => (w, None).

(** [try { m } catch (error) { h }] *)
Definition try_catch {A : Type} (m h : M A) : M A := fun w =>
  match m w with
  | (w', Some a) => (w', Some a)
  | (w', None) => h w'
  end.

Definition get_db : M database := fun w => (w, Some (db w)).
Definition put_db (d : database) : M unit := fun w =>
  ({| db := d; calls := calls w; trace := trace w |}, Some tt).
Definition call (c : store_call) : M unit := fun w =>
  ({| db := db w; calls := calls w ++ [c]; trace := trace w |}, Some tt).
Definition emit (e : event) : M unit := fun w =>
  ({| db := db w; calls := calls w; trace := trace w ++ [e] |}, Some tt).

(** [next(e)] *)
Definition next (e : exn) : M unit := emit (Next e).

(** [res.status(c).json({ success, count, data })] *)
Definition json (c : nat) (s : bool) (n : option nat) (d : payload) : M unit :=
  emit (Json {| status := c; success := s; count := n; data := d |}).

(** Reading a member of [undefined] throws a [TypeError]. *)
Definition deref {A : Type} (o : option A) : M A :=
  match o with Some a => mret a | None => throw end.

(** The world a handler leaves behind when it starts on database [d]. *)
Definition run (h : M unit) (d : database) : world :=
  fst (h {| db := d; calls := []; trace := [] |}).

(** ** The operations of the ODM

    Mongoose is not part of the repository.  What follows is the part of its
    behaviour on which the handlers rely: a collection is the list of its
    documents in natural order; a query by id casts the id to an ObjectId and
    rejects with a [CastError] when it cannot; [create] validates the whole
    document against the schema and rejects when it is not valid, then casts
    the ObjectId paths and gives the document an [_id]; an update sets the
    fields it is given, after validation when [runValidators] is set. *)

Definition collection (m : model) (d : database) : list obj :=
  match m with Bootcamp => bootcamps d | Course => courses d end.

Definition set_collection (m : model) (l : list obj) (d : database) : database :=
  match m with
  | Bootcamp =>
      {| bootcamps := l; courses := courses d; disk := disk d; next_ref := next_ref d |}
  | Course =>
      {| bootcamps := bootcamps d; courses := l; disk := disk d; next_ref := next_ref d |}
  end.

(** Equality as a query evaluates it: identifiers by their text. *)
Definition same_id (a b : value) : bool :=
  match a, b with
  | VUndefined, VUndefined => true
  | VUndefined, _ | _, VUndefined => false
  | _, _ => String.eqb (to_string a) (to_string b)
  end.

Definition has_id (id : string) (d : obj) : bool :=
  String.eqb (to_string (field d "_id")) id.

(** Whether document [d] satisfies the equality filter [q]. *)
Definition matches (q d : obj) : bool :=
  forallb (fun kv => same_id (field d kv.1) kv.2) (map_to_list q).

(** [Object.assign]-like merge of an update into a document: the fields of
    [u] override those of [d]. *)
Definition assign (u d : obj) : obj := u ∪ d.

Section Controllers.

Variable E : collaborators.

Definition schema_of (m : model) : schema :=
  match m with Bootcamp => BootcampSchema E | Course => CourseSchema end.

(** Casting an identifier given to a query by id: the text of the ObjectId,
    [Some None] for [undefined] (no document has it), [None] for a
    [CastError]. *)
Definition cast_id (v : value) : option (option string) :=
  match v with
  | VUndefined => Some None
  | VString s => if is_object_id E s then Some (Some s) else None
  | VObjectId _ hex => Some (Some hex)
  end.

Definition castable (v : value) : bool := non_null (cast_id v).

(** A [required] validator: the value is there, and is not the empty
    string. *)
Definition present (v : value) : bool := truthy v.

Definition enum_ok (allowed : list string) (v : value) : bool :=
  match v with
  | VUndefined => true
  | _ => existsb (String.eqb (to_string v)) allowed
  end.

(** Validation of a whole document, on [create]. *)
Definition validate (s : schema) (d : obj) : bool :=
  forallb (fun k => present (field d k)) (required s)
  && forallb (fun k => castable (field d k)) (object_ids s)
  && forallb (fun kv => enum_ok kv.2 (field d kv.1)) (enums s).

(** Validation of an update, with [runValidators]: only the paths that the
    update sets are checked. *)
Definition validate_update (s : schema) (u : obj) : bool :=
  forallb (fun k => match u !! k with Some v => present v | None => true end) (required s)
  && forallb (fun kv => enum_ok kv.2 (field u kv.1)) (enums s).

(** Strict mode: only the paths of the schema are kept. *)
Definition strict (s : schema) (d : obj) : obj :=
  filter (fun kv => bool_decide (kv.1 ∈ paths s)) d.

(** Casting the ObjectId paths of a document: a string becomes a new ObjectId
    object, of identity [r], [r+1], ... in the order of [ks]. *)
Fixpoint cast_paths (ks : list string) (r : nat) (d : obj) : obj :=
  match ks with
  | [] => d
  | k :: ks' =>
      cast_paths ks' (S r)
        match d !! k with
        | Some (VString s) => <[k := VObjectId r s]> d
        | _ => d
        end
  end.

(** [Model.findById(id)] *)
Definition findById (m : model) (id : value) : M (option obj) :=
  call (FindById m id) ;;
  id' ← deref (cast_id id);
  d ← get_db;
  mret (id'' ← id'; List.find (has_id id'') (collection m d)).

(** [Model.findOne(filter)] *)
Definition findOne (m : model) (q : obj) : M (option obj) :=
  call (FindOne m q) ;;
  d ← get_db;
  mret (List.find (matches q) (collection m d)).

(** [Model.find({ location: { $geoWithin: { $centerSphere: [center, radius] } } })] *)
Definition find_geoWithin (m : model) (center : Q * Q) (radius : option Q)
  : M (list obj) :=
  call (FindGeoWithin m center radius) ;;
  d ← get_db;
  deref (geoWithin E (collection m d) center radius).

(** [Model.create(body)] *)
Definition create (m : model) (b : obj) : M obj :=
  call (Create m b) ;;
  d ← get_db;
  if validate (schema_of m) b then
    let r := next_ref d in
    let doc :=
      <["_id" := VObjectId r (new_object_id E r)]>
        (cast_paths (object_ids (schema_of m)) (S r) (strict (schema_of m) b)) in
    put_db (set_collection m (collection m d ++ [doc])
              {| bootcamps := bootcamps d; courses := courses d; disk := disk d;
                 next_ref := S r + length (object_ids (schema_of m)) |}) ;;
    mret doc
  else throw.

(** [Model.findByIdAndUpdate(id, update, { new: true, runValidators })]; the
    photo upload calls it without options and drops the result. *)
Definition findByIdAndUpdate (m : model) (id : value) (u : obj)
    (runValidators : bool) : M (option obj) :=
  call (FindByIdAndUpdate m id u) ;;
  id' ← deref (cast_id id);
  d ← get_db;
  if forallb (fun k => castable (field u k)) (object_ids (schema_of m))
     && (negb runValidators || validate_update (schema_of m) u) then
    match id' ≫= fun s => List.find (has_id s) (collection m d) with
    | None => mret None
    | Some old =>
        let r := next_ref d in
        let new :=
          assign (cast_paths (object_ids (schema_of m)) r (strict (schema_of m) u)) old in
        put_db (set_collection m
                  (map (fun x => if has_id (to_string (field old "_id")) x then new else x)
                       (collection m d))
                  {| bootcamps := bootcamps d; courses := courses d; disk := disk d;
                     next_ref := r + length (object_ids (schema_of m)) |}) ;;
        mret (Some new)
    end
  else throw.

(** [doc.remove()] *)
Definition remove (m : model) (doc : obj) : M unit :=
  call (Remove m (field doc "_id")) ;;
  d ← get_db;
  put_db (set_collection m
            (List.filter (fun x => negb (has_id (to_string (field doc "_id")) x))
                         (collection m d)) d).

(** [geocoder.geocode(zipcode)] *)
Definition geocode (zipcode : value) : M (list (Q * Q)) :=
  call (Geocode zipcode) ;;
  deref (geocoder_geocode E zipcode).

(** [file.mv(path, cb)]: the result is the error given to [cb], if any. *)
Definition mv (file : uploaded_file) (path : string) : M bool :=
  call (Mv path) ;;
  if mv_error E path then mret true
  else
    d ← get_db;
    put_db {| bootcamps := bootcamps d; courses := courses d;
              disk := <[path := f_data file]> (disk d); next_ref := next_ref d |} ;;
    mret false.

(** [Course.findById(id).populate({ path: 'bootcamp', select: 'name description' })] *)
Definition populate_bootcamp (c : option obj) : M payload :=
  match c with
  | None => mret PNull
  | Some c =>
      d ← get_db;
      mret (PPopulated c "bootcamp"
              (filter (fun kv => bool_decide (kv.1 ∈ ["_id"; "name"; "description"]))
                 <$> List.find (fun b => same_id (field b "_id") (field c "bootcamp"))
                       (bootcamps d)))
  end.

(** ** [BootcampController] *)

Definition admin : value := VString "admin".

(** [POST /api/v1/bootcamps] *)
Definition createBootcamp (req : request) : M unit :=
  try_catch
    ((* req.body.user = req.user?.id *)
     let body := <["user" := user_id req]> (body req) in
     publishedBootcamp ← findOne Bootcamp {["user" := user_id req]};
     if non_null publishedBootcamp && strict_neq (user_role req) admin then
       next (BadRequestException (Some
         ("The uuser with ID " +:+ to_string (user_id req)
            +:+ " has already published a bootcamp")))
     else
       bootcamp ← create Bootcamp body;
       json 201 true None (PDoc bootcamp))
    (next (BadRequestException None)).

(** [PUT /api/v1/bootcamps/:id] *)
Definition updateBootcamp (req : request) : M unit :=
  try_catch
    (bootcamp ← findById Bootcamp (param req "id");
     match bootcamp with
     | None => next (NotFoundException (param req "id"))
     | Some bootcamp =>
         if strict_neq (field bootcamp "user") (user_id req)
            && strict_neq (user_role req) admin then
           next (InvalidCredentialException
             ("User " +:+ to_string (param req "id")
                +:+ " is not authorized to upadte this bootcamp"))
         else
           bootcamp ← findByIdAndUpdate Bootcamp (param req "id") (body req) true;
           json 200 true None (from_option PDoc PNull bootcamp)
     end)
    (next (BadRequestException None)).

(** [DELETE /api/v1/bootcamps/:id] *)
Definition deleteBootcamp (req : request) : M unit :=
  try_catch
    (bootcamp ← findById Bootcamp (param req "id");
     match bootcamp with
     | None => next (NotFoundException (param req "id"))
     | Some bootcamp =>
         if strict_neq (field bootcamp "user") (user_id req)
            && strict_neq (user_role req) admin then
           next (InvalidCredentialException
             ("User " +:+ to_string (param req "id")
                +:+ " is not authorized to delete this bootcamp"))
         else
           remove Bootcamp bootcamp ;;
           json 200 true None PEmpty
     end)
    (next (BadRequestException None)).

(** [GET /api/v1/bootcamps/radius/:zipcode/:distance] *)
Definition getBootcampsInRadius (req : request) : M unit :=
  try_catch
    (let zipcode := param req "zipcode" in
     let distance := param req "distance" in
     loc ← geocode zipcode;
     (* loc[0].latitude: a TypeError when nothing was found *)
     loc0 ← deref (head loc);
     let lat := loc0.1 in
     let lng := loc0.2 in
     (* Earth Radius = 3,963 mi / 6,378 km *)
     let radius := div_number (parseInt (to_string distance)) 3963 in
     bootcamps ← find_geoWithin Bootcamp (lng, lat) radius;
     json 200 true (Some (length bootcamps)) (PDocs bootcamps))
    (next (BadRequestException None)).

(** [PUT /api/v1/bootcamps/:id/photo].  The callback given to [file.mv] runs
    once the [try] block has been left: the block yields it, and it is run
    outside, where nothing catches what it throws. *)
Definition bootcampPhotoUpload (req : request) : M unit :=
  callback ←
    try_catch
      (bootcamp ← findById Bootcamp (param req "id");
       match bootcamp with
       | None => next (NotFoundException (param req "id")) ;; mret (mret tt)
       | Some bootcamp =>
           if strict_neq (field bootcamp "user") (user_id req)
              && strict_neq (user_role req) admin then
             next (InvalidCredentialException
               ("User " +:+ to_string (param req "id")
                  +:+ " is not authorized to upadte this bootcamp")) ;;
             mret (mret tt)
           else
             match files req with
             | None =>
                 next (BadRequestException (Some "Please upload a file")) ;;
                 mret (mret tt)
             | Some fs =>
                 (* file.mimetype: a TypeError when req.files.file is undefined *)
                 file ← deref (fs !! "file");
                 if negb (startsWith (f_mimetype file) "image") then
                   next (BadRequestException (Some "Please upload an image file")) ;;
                   mret (mret tt)
                 else if gt_number (Z.of_nat (f_size file))
                           (parseInt (to_string (max_file_upload E))) then
                   next (BadRequestException (Some
                     ("Please upload an image size less than "
                        +:+ to_string (max_file_upload E)))) ;;
                   mret (mret tt)
                 else
                   let name :=
                     "photo_" +:+ to_string (field bootcamp "_id")
                       +:+ path_ext E (f_name file) in
                   err ← mv file (to_string (file_upload_path E) +:+ "/" +:+ name);
                   mret
                     (if err : bool then
                        next (ServerErrorException "Problem with file upload")
                      else
                        findByIdAndUpdate Bootcamp (param req "id")
                          {["photo" := VString name]} false ;;
                        json 200 true None (PText name))
             end
       end)
      (next (BadRequestException None) ;; mret (mret tt));
  callback.

(** ** [CourseController] *)

(** [GET /api/v1/courses/:id] *)
Definition getCourse (req : request) : M unit :=
  try_catch
    (course ← findById Course (param req "id");
     populated ← populate_bootcamp course;
     (if negb (non_null course) then next (NotFoundException (param req "id"))
      else mret tt) ;;
     json 200 true None populated)
    (next (BadRequestException None)).

(** [POST /api/v1/bootcamps/:bootcampId/courses] *)
Definition addCourse (req : request) : M unit :=
  try_catch
    ((* req.body.bootcamp = req.params.bootcampId; req.body.user = req.user?.id *)
     let body :=
       <["user" := user_id req]> (<["bootcamp" := param req "bootcampId"]> (body req)) in
     bootcamp ← findById Bootcamp (param req "bootcampId");
     (if negb (non_null bootcamp) then
        next (NotFoundException (param req "bootcampId"))
      else mret tt) ;;
     if strict_neq (opt_field bootcamp "user") (user_id req)
        && strict_neq (user_role req) admin then
       next (InvalidCredentialException
         ("User " +:+ to_string (param req "id")
            +:+ " is not authorized to add a course to bootcamp "
            +:+ to_string (opt_field bootcamp "_id")))
     else
       course ← create Course body;
       json 200 true None (PDoc course))
    (next (BadRequestException None)).

(** [PUT /api/v1/courses/:id] *)
Definition updateCourse (req : request) : M unit :=
  try_catch
    (course ← findById Course (param req "id");
     (if negb (non_null course) then next (NotFoundException (param req "id"))
      else mret tt) ;;
     if strict_neq (opt_field course "user") (user_id req)
        && strict_neq (user_role req) admin then
       next (InvalidCredentialException
         ("User " +:+ to_string (param req "id")
            +:+ " is not authorized to update course "
            +:+ to_string (opt_field course "_id")))
     else
       course ← findByIdAndUpdate Course (param req "id") (body req) true;
       json 200 true None (from_option PDoc PNull course))
    (next (BadRequestException None)).

(** [DELETE /api/v1/courses/:id] *)
Definition deleteCourse (req : request) : M unit :=
  try_catch
    (course ← findById Course (param req "id");
     (if negb (non_null course) then next (NotFoundException (param req "id"))
      else mret tt) ;;
     if strict_neq (opt_field course "user") (user_id req)
        && strict_neq (user_role req) admin then
       next (InvalidCredentialException
         ("User " +:+ to_string (param req "id")
            +:+ " is not authorized to update course "
            +:+ to_string (opt_field course "_id")))
     else
       (* await course?.remove() *)
       match course with
       | Some course => remove Course course
       | None => mret tt
       end ;;
       json 200 true None PEmpty)
    (next (BadRequestException None)).

End Controllers.

(** ** Vocabulary of the properties *)

(** The handlers that change the store on behalf of a principal, and the
    resource each of them fetches before it decides. *)
Inductive mutation :=
| UpdateBootcamp
| DeleteBootcamp
| BootcampPhotoUpload
| AddCourse
| UpdateCourse
| DeleteCourse.

Definition handler (E : collaborators) (op : mutation) : request -> M unit :=
  match op with
  | UpdateBootcamp => updateBootcamp E
  | DeleteBootcamp => deleteBootcamp E
  | BootcampPhotoUpload => bootcampPhotoUpload E
  | AddCourse => addCourse E
  | UpdateCourse => updateCourse E
  | DeleteCourse => deleteCourse E
  end.

Definition resource_model (op : mutation) : model :=
  match op with
  | UpdateCourse | DeleteCourse => Course
  | _ => Bootcamp
  end.

Definition resource_param (op : mutation) : string :=
  match op with
  | AddCourse => "bootcampId"
  | _ => "id"
  end.

(** The document with identifier [id] in a collection, if the ODM accepts
    [id] and finds one. *)
Definition lookup_id (E : collaborators) (m : model) (id : value) (d : database)
  : option obj :=
  s ← mjoin (cast_id E id); List.find (has_id s) (collection m d).

Definition fetched (E : collaborators) (op : mutation) (req : request) (d : database)
  : option obj :=
  lookup_id E (resource_model op) (param req (resource_param op)) d.

(** The handler refused the principal: its only call on Express is
    [next(new InvalidCredentialException(msg))]. *)
Definition denied_with (msg : string) (w : world) : Prop :=
  trace w = [Next (InvalidCredentialException msg)].

(** The handler did not refuse the principal. *)
Definition allowed (w : world) : Prop :=
  forall msg, Next (InvalidCredentialException msg) ∉ trace w.

(** The handler answered with a [BadRequestException] and nothing else. *)
Definition rejected (w : world) : Prop :=
  exists msg, trace w = [Next (BadRequestException msg)].

(** The calls that write to the store or to the disk. *)
Definition is_mutation (c : store_call) : bool :=
  match c with
  | Create _ _ | FindByIdAndUpdate _ _ _ | Remove _ _ | Mv _ => true
  | _ => false
  end.

Definition read_only (w : world) : Prop :=
  Forall (fun c => is_mutation c = false) (calls w).

(** [req.files?.file] *)
Definition asset (req : request) : option uploaded_file :=
  fs ← files req; fs !! "file".

(** The principal is the owner recorded in some bootcamp of the store. *)
Definition owns_bootcamp (u : principal) (d : database) : Prop :=
  exists b, b ∈ bootcamps d /\ same_id (field b "user") (VString (p_id u)) = true.

(** No document of the collection has identifier [id]. *)
Definition absent (m : model) (id : string) (d : database) : Prop :=
  forall x, x ∈ collection m d -> to_string (field x "_id") <> id.

(** What a message has to mention to name the action of a handler. *)
Definition action_word (op : mutation) : string :=
  match op with
  | UpdateBootcamp | UpdateCourse => "update"
  | DeleteBootcamp | DeleteCourse => "delete"
  | BootcampPhotoUpload => "upload"
  | AddCourse => "add a course"
  end.

(** The test of the gate, for principal [u] and the fetched resource [R]
    ([None] when the lookup gave [null]). *)
Definition gate (u : principal) (R : option obj) : bool :=
  strict_neq (opt_field R "user") (VString (p_id u))
  && strict_neq (VString (p_role u)) admin.

(** The message of the [InvalidCredentialException] of each handler. *)
Definition denial_message (op : mutation) (req : request) (R : option obj) : string :=
  match op with
  | UpdateBootcamp | BootcampPhotoUpload =>
      "User " +:+ to_string (param req "id")
        +:+ " is not authorized to upadte this bootcamp"
  | DeleteBootcamp =>
      "User " +:+ to_string (param req "id")
        +:+ " is not authorized to delete this bootcamp"
  | AddCourse =>
      "User " +:+ to_string (param req "id")
        +:+ " is not authorized to add a course to bootcamp "
        +:+ to_string (opt_field R "_id")
  | UpdateCourse | DeleteCourse =>
      "User " +:+ to_string (param req "id")
        +:+ " is not authorized to update course "
        +:+ to_string (opt_field R "_id")
  end.


(** ** The pagination executor *)

Module Pagination.

Section Executor.

Context {T : Type}.

(** Modelled from the spec: the query descriptor of section 3 (the query
    translator and the pagination middleware that build and run it are not
    among the source files).  [filters] is the conjunction of the comparison
    filters, [select] the field selection, [sort] the ordering of
    [sortFields]. *)
Record descriptor := {
  filters : T -> bool;
  select : T -> T;
  sort : list T -> list T;
  page : nat;
  limit : nat;
}.

(** Modelled from the spec: the invariant [page ≥ 1], [limit ≥ 1] of a
    descriptor. *)
Definition valid (q : descriptor) : Prop := 1 <= page q /\ 1 <= limit q.

(** Modelled from the spec: a descriptor of an adjacent page. *)
Record page_ref := { ref_page : nat; ref_limit : nat }.

(** Modelled from the spec: [Page<T>], with its optional [previous] and
    [next]. *)
Record Page := {
  items : list T;
  count : nat;
  previous : option page_ref;
  next : option page_ref;
}.

(** Modelled from the spec: the number of documents that match the filters,
    whatever the page. *)
Definition total (q : descriptor) (coll : list T) : nat :=
  length (List.filter (filters q) coll).

(** Modelled from the spec: [execute] of section 4.2.  Filters, then field
    selection, then sort, then skip [(page-1)*limit] and keep [limit];
    [previous] iff [page > 1], [next] iff [page * limit < total]. *)
Definition execute (q : descriptor) (coll : list T) : Page :=
  let matching := sort q (map (select q) (List.filter (filters q) coll)) in
  let its := take (limit q) (drop ((page q - 1) * limit q) matching) in
  {| items := its;
     count := length its;
     previous :=
       if (1 <? page q)%nat
       then Some {| ref_page := page q - 1; ref_limit := limit q |} else None;
     next :=
       if (page q * limit q <? total q coll)%nat
       then Some {| ref_page := page q + 1; ref_limit := limit q |} else None |}.

End Executor.

Arguments descriptor : clear implicits.
Arguments Page : clear implicits.

End Pagination.

(** ** A concrete deployment, for the examples *)

Definition demo_schema : schema := {|
  paths := ["name"; "description"; "user"; "photo"];
  required := ["name"; "user"];
  object_ids := [];
  enums := [];
|}.

Definition demo : collaborators := {|
  is_object_id := fun s => (String.length s =? 2)%nat;
  new_object_id := fun n => String "n" (String (ascii_of_nat (48 + n)) EmptyString);
  BootcampSchema := demo_schema;
  geocoder_geocode := fun _ => Some [(42 # 1, (-71) # 1)];
  geoWithin := fun l _ _ => Some l;
  path_ext := fun s => if String.eqb s "logo.png" then ".png" else ".jpg";
  max_file_upload := VString "1000";
  file_upload_path := VString "./public/uploads";
  mv_error := fun _ => false;
|}.

Definition B1 : obj :=
  <["_id" := VObjectId 0 "B1"]> (<["user" := VString "U1"]>
    (<["name" := VString "Devworks"]> ∅)).

Definition C1 : obj :=
  <["_id" := VObjectId 1 "C1"]> (<["user" := VObjectId 2 "U1"]>
    (<["bootcamp" := VObjectId 3 "B1"]> (<["title" := VString "Front end"]> ∅))).

Definition demo_db : database :=
  {| bootcamps := [B1]; courses := [C1]; disk := ∅; next_ref := 4 |}.

Definition owner : principal := {| p_id := "U1"; p_role := "publisher" |}.
Definition stranger : principal := {| p_id := "U2"; p_role := "publisher" |}.
Definition root : principal := {| p_id := "U9"; p_role := "admin" |}.

Definition demo_request (ps : list (string * string)) (u : principal) : request :=
  {| params := list_to_map ps; body := ∅; user := Some u; files := None |}.

Definition with_body (b : obj) (req : request) : request :=
  {| params := params req; body := b; user := user req; files := files req |}.

Definition with_file (f : uploaded_file) (req : request) : request :=
  {| params := params req; body := body req; user := user req;
     files := Some {["file" := f]} |}.

Definition course_body : obj :=
  list_to_map [("title", VString "Back end"); ("description", VString "Node");
               ("weeks", VString "8"); ("tuition", VString "9000");
               ("minimumSkill", VString "beginner")].

Definition png (n : nat) : uploaded_file :=
  {| f_name := "logo.png"; f_mimetype := "image/png"; f_size := n; f_data := "PNG" |}.

Definition upload_to_B1 (f : uploaded_file) (d : database) : database :=
  db (run (bootcampPhotoUpload demo (with_file f (demo_request [("id", "B1")] owner))) d).

Definition radius_request (distance : string) : request :=
  demo_request [("zipcode", "02118"); ("distance", distance)] stranger.

(** Tuitions, for the pagination example: listed in decreasing order. *)
Fixpoint insert_desc (x : nat) (l : list nat) : list nat :=
  match l with
  | [] => [x]
  | y :: l' => if (y <=? x)%nat then x :: l else y :: insert_desc x l'
  end.

Definition sort_desc (l : list nat) : list nat := foldr insert_desc [] l.

Definition tuition_query : Pagination.descriptor nat :=
  {| Pagination.filters := fun t => (1000 <=? t)%nat;
     Pagination.select := fun t => t;
     Pagination.sort := sort_desc;
     Pagination.page := 2;
     Pagination.limit := 2 |}.

Definition tuitions : list nat := [500; 3000; 1000; 5000; 2000; 4000].

(** ** The read handlers of the two controllers *)

Section ReadControllers.

Variable E : collaborators.

(** [res.resourceResults], the body that the pagination middleware has left on
    the response: its [success], [count] and [data] members (the [pagination]
    member has no counterpart in [response]; the handlers only forward the
    body). *)
Variable resourceResults : response.

(** [res.status(c).json(b)] for a body [b] that is already built. *)
Definition send (c : nat) (b : response) : M unit :=
  emit (Json {| status := c; success := success b; count := count b; data := data b |}).

(** [Model.find(filter)]: the filter is cast along the schema (a [CastError]
    when an ObjectId path gets a value that is none), then the documents that
    satisfy it are returned in natural order.  The log of calls has no entry
    for this query. *)
Definition find_where (m : model) (q : obj) : M (list obj) :=
  d ← get_db;
  if forallb (fun k => castable E (field q k)) (object_ids (schema_of E m))
  then mret (List.filter (matches q) (collection m d))
  else throw.

(** [GET /api/v1/bootcamps] *)
Definition getBootcamps (req : request) : M unit :=
  try_catch
    (send 200 resourceResults)
    (next (BadRequestException None)).

(** [GET /api/v1/bootcamps/:id] *)
Definition getBootcamp (req : request) : M unit :=
  try_catch
    (bootcamp ← findById E Bootcamp (param req "id");
     match bootcamp with
     | None => next (NotFoundException (param req "id"))
     | Some bootcamp => json 200 true None (PDoc bootcamp)
     end)
    (next (BadRequestException None)).

(** [GET /api/v1/courses] and [GET /api/v1/bootcamps/:bootcampId/courses] *)
Definition getCourses (req : request) : M unit :=
  try_catch
    (if truthy (param req "bootcampId") then
       courses ← find_where Course {["bootcamp" := param req "bootcampId"]};
       json 200 true (Some (length courses)) (PDocs courses)
     else
       send 200 resourceResults)
    (next (NotFoundException VUndefined)).

End ReadControllers.

(** ** The routers *)

Inductive method := GET | POST | PUT | DELETE.

(** A segment of a route path: a literal, or a parameter [:name]. *)
Inductive segment :=
| Lit (s : string)
| Par (name : string).

(** The second argument of [paginationAndPopulate]: a path, or a path with
    the fields to select. *)
Inductive populate :=
| Path (path : string)
| PathSelect (path select : string).

Inductive middleware :=
| protect
| authorize (roles : list string)
| paginationAndPopulate (m : model) (p : populate).

(** The handlers of the two controllers. *)
Inductive endpoint :=
| GetBootcamps | GetBootcamp | CreateBootcamp | UpdateBootcampAt | DeleteBootcampAt
| GetBootcampsInRadius | BootcampPhotoUploadAt
| GetCourses | GetCourse | AddCourseAt | UpdateCourseAt | DeleteCourseAt.

Record route := {
  r_method : method;
  r_path : list segment;
  r_chain : list middleware;
  r_handler : endpoint;
}.

(** An entry of a router: a route, or another router mounted under a path
    with [router.use]. *)
Inductive entry :=
| Route (r : route)
| Use (prefix : list segment) (sub : list route).

Definition guard : list middleware := [protect; authorize ["publisher"; "admin"]].

(** The router of the courses ([Router({ mergeParams: true })]), in the order
    of registration. *)
Definition courseRoute : list route := [
  {| r_method := GET; r_path := [];
     r_chain := [paginationAndPopulate Course (PathSelect "bootcamp" "name description")];
     r_handler := GetCourses |};
  {| r_method := POST; r_path := []; r_chain := guard; r_handler := AddCourseAt |};
  {| r_method := GET; r_path := [Par "id"]; r_chain := []; r_handler := GetCourse |};
  {| r_method := PUT; r_path := [Par "id"]; r_chain := guard;
     r_handler := UpdateCourseAt |};
  {| r_method := DELETE; r_path := [Par "id"]; r_chain := guard;
     r_handler := DeleteCourseAt |}
].

(** The router of the bootcamps, in the order of registration. *)
Definition bootcampRoute : list entry := [
  Use [Par "bootcampId"; Lit "courses"] courseRoute;
  Route {| r_method := PUT; r_path := [Par "id"; Lit "photo"]; r_chain := guard;
           r_handler := BootcampPhotoUploadAt |};
  Route {| r_method := GET; r_path := [];
           r_chain := [paginationAndPopulate Bootcamp (Path "courses")];
           r_handler := GetBootcamps |};
  Route {| r_method := GET; r_path := [Par "id"]; r_chain := [];
           r_handler := GetBootcamp |};
  Route {| r_method := GET; r_path := [Lit "radius"; Par "zipcode"; Par "distance"];
           r_chain := []; r_handler := GetBootcampsInRadius |};
  Route {| r_method := POST; r_path := []; r_chain := guard;
           r_handler := CreateBootcamp |};
  Route {| r_method := PUT; r_path := [Par "id"]; r_chain := guard;
           r_handler := UpdateBootcampAt |};
  Route {| r_method := DELETE; r_path := [Par "id"]; r_chain := guard;
           r_handler := DeleteBootcampAt |}
].

(** Express compares the literal segments without regard to case. *)
Definition lower (c : ascii) : ascii :=
  let n := nat_of_ascii c in
  if (65 <=? n)%nat && (n <=? 90)%nat then ascii_of_nat (n + 32) else c.

Fixpoint lowercase (s : string) : string :=
  match s with
  | EmptyString => EmptyString
  | String c s' => String (lower c) (lowercase s')
  end.

Definition method_eqb (a b : method) : bool :=
  match a, b with
  | GET, GET | POST, POST | PUT, PUT | DELETE, DELETE => true
  | _, _ => false
  end.

(** Matching the segments of a pattern against the first segments of a path:
    the parameters that were bound and the segments that are left.  A
    parameter takes one segment that is not empty. *)
Fixpoint match_prefix (pat : list segment) (path : list string)
  : option (gmap string string * list string) :=
  match pat, path with
  | [], _ => Some (∅, path)
  | _ :: _, [] => None
  | Lit l :: pat', x :: path' =>
      if String.eqb (lowercase x) (lowercase l) then match_prefix pat' path' else None
  | Par name :: pat', x :: path' =>
      if String.eqb x EmptyString then None
      else '(ps, rest) ← match_prefix pat' path'; Some (<[name := x]> ps, rest)
  end.

(** A route takes a request when the method is its own and the pattern
    matches the whole path. *)
Definition match_route (r : route) (mth : method) (path : list string)
  : option (gmap string string) :=
  if method_eqb (r_method r) mth then
    '(ps, rest) ← match_prefix (r_path r) path;
    match rest with [] => Some ps | _ => None end
  else None.

(** The first route of a router that takes the request, with the parameters
    of the request; [inherited] are the parameters of the routers above. *)
Fixpoint dispatch_routes (rs : list route) (inherited : gmap string string)
    (mth : method) (path : list string) : option (route * gmap string string) :=
  match rs with
  | [] => None
  | r :: rs' =>
      match match_route r mth path with
      | Some ps => Some (r, ps ∪ inherited)
      | None => dispatch_routes rs' inherited mth path
      end
  end.

(** A router whose entries are routes and mounted routers: an entry that does
    not take the request hands it to the next one. *)
Fixpoint dispatch (es : list entry) (mth : method) (path : list string)
  : option (route * gmap string string) :=
  match es with
  | [] => None
  | Route r :: es' =>
      match match_route r mth path with
      | Some ps => Some (r, ps)
      | None => dispatch es' mth path
      end
  | Use prefix sub :: es' =>
      match
        '(ps, rest) ← match_prefix prefix path; dispatch_routes sub ps mth rest
      with
      | Some hit => Some hit
      | None => dispatch es' mth path
      end
  end.

(** The handler behind an endpoint. *)
Definition controller (E : collaborators) (resourceResults : response) (e : endpoint)
  : request -> M unit :=
  match e with
  | GetBootcamps => getBootcamps resourceResults
  | GetBootcamp => getBootcamp E
  | CreateBootcamp => createBootcamp E
  | UpdateBootcampAt => updateBootcamp E
  | DeleteBootcampAt => deleteBootcamp E
  | GetBootcampsInRadius => getBootcampsInRadius E
  | BootcampPhotoUploadAt => bootcampPhotoUpload E
  | GetCourses => getCourses E resourceResults
  | GetCourse => getCourse E
  | AddCourseAt => addCourse E
  | UpdateCourseAt => updateCourse E
  | DeleteCourseAt => deleteCourse E
  end.

(** The routes of a router, those of the routers it mounts included. *)
Definition routes_of (es : list entry) : list route :=
  es ≫= fun e => match e with Route r => [r] | Use _ sub => sub end.

(** The parameters of the route that each handler reads in [req.params]. *)
Definition reads (e : endpoint) : list string :=
  match e with
  | GetBootcamps | CreateBootcamp => []
  | GetBootcamp | UpdateBootcampAt | DeleteBootcampAt | BootcampPhotoUploadAt => ["id"]
  | GetBootcampsInRadius => ["zipcode"; "distance"]
  | GetCourses => ["bootcampId"]
  | GetCourse | UpdateCourseAt | DeleteCourseAt => ["id"]
  | AddCourseAt => ["bootcampId"; "id"]
  end.

(** The deployment of the examples, with another upload limit and a file
    sink that may fail. *)
Definition demo_with (limit : value) (sink_fails : bool) : collaborators := {|
  is_object_id := is_object_id demo;
  new_object_id := new_object_id demo;
  BootcampSchema := BootcampSchema demo;
  geocoder_geocode := geocoder_geocode demo;
  geoWithin := geoWithin demo;
  path_ext := path_ext demo;
  max_file_upload := limit;
  file_upload_path := file_upload_path demo;
  mv_error := fun _ => sink_fails;
|}.

(** The handlers of the course controller that look a document up, with the
    model and the parameter of the lookup. *)
Definition course_lookups (E : collaborators)
  : list ((request -> M unit) * model * string) :=
  [(getCourse E, Course, "id"); (addCourse E, Bootcamp, "bootcampId");
   (updateCourse E, Course, "id"); (deleteCourse E, Course, "id")].

(** ** More vocabulary *)

(** The number of bootcamps of the store whose owner is the principal. *)
Definition owned_count (u : principal) (d : database) : nat :=
  length (List.filter (fun b => same_id (field b "user") (VString (p_id u)))
            (bootcamps d)).

(** The handlers that read a document by the [id] of the route. *)
Definition by_id_handlers (E : collaborators) : list (request -> M unit) :=
  [getBootcamp E; updateBootcamp E; deleteBootcamp E; bootcampPhotoUpload E;
   getCourse E; updateCourse E; deleteCourse E].

(** The handlers of [BootcampController]. *)
Definition bootcamp_handlers (E : collaborators) (resourceResults : response)
  : list (request -> M unit) :=
  [getBootcamps resourceResults; getBootcamp E; createBootcamp E; updateBootcamp E;
   deleteBootcamp E; getBootcampsInRadius E; bootcampPhotoUpload E].

(** The handlers that serve a [GET]. *)
Definition read_handlers (E : collaborators) (resourceResults : response)
  : list (request -> M unit) :=
  [getBootcamps resourceResults; getBootcamp E; getBootcampsInRadius E;
   getCourses E resourceResults; getCourse E].

Definition page_of_results : response :=
  {| status := 0; success := true; count := Some 1; data := PDocs [B1] |}.

Definition request_of (ps : gmap string string) (u : option principal) (b : obj)
  : request :=
  {| params := ps; body := b; user := u; files := None |}.

(** * Properties *)

(** ** Values and lists *)

Example parseInt_100 : parseInt "100" = Some 100%Z.
Proof. reflexivity. Qed.

Example parseInt_fraction : parseInt "12.7" = Some 12%Z.
Proof. reflexivity. Qed.

Example parseInt_negative : parseInt " -5 miles" = Some (-5)%Z.
Proof. reflexivity. Qed.

Example parseInt_hex : parseInt "0x1f" = Some 31%Z.
Proof. reflexivity. Qed.

Example parseInt_NaN : parseInt "ten" = None.
Proof. reflexivity. Qed.

Example parseInt_undefined : parseInt (to_string VUndefined) = None.
Proof. reflexivity. Qed.

Lemma strict_eq_string v s : strict_eq v (VString s) = true <-> v = VString s.
Proof.
  destruct v as [|t|r h]; simpl; [easy| |easy].
  rewrite String.eqb_eq. split; congruence.
Qed.

(** An ObjectId object is never strictly equal to a string, whatever its
    text. *)
Lemma strict_neq_object_id r hex s : strict_neq (VObjectId r hex) (VString s) = true.
Proof. reflexivity. Qed.

(** [undefined] is never strictly equal to a string. *)
Lemma strict_neq_undefined s : strict_neq VUndefined (VString s) = true.
Proof. reflexivity. Qed.

(** The test that guards every mutation: it fails exactly for an admin and
    for a principal whose id is the value of the owner field. *)
Lemma gate_spec v i r :
  strict_neq v (VString i) && strict_neq (VString r) admin = false
  <-> r = "admin" \/ v = VString i.
Proof.
  unfold strict_neq, admin. rewrite andb_false_iff, !negb_false_iff.
  rewrite !strict_eq_string. split; intros [H|H]; auto; [left|right]; congruence.
Qed.

Lemma find_is_None {A} (f : A -> bool) (l : list A) :
  List.find f l = None <-> forall x, x ∈ l -> f x = false.
Proof.
  induction l as [|y l IH]; simpl.
  - split; [intros _ x Hx; inversion Hx | done].
  - destruct (f y) eqn:Hy.
    + split; [done|]. intros H. rewrite H in Hy; [done | left].
    + rewrite IH. split.
      * intros H x Hx. apply elem_of_cons in Hx as [->|Hx]; auto.
      * intros H x Hx. apply H. by right.
Qed.

Lemma find_is_Some {A} (f : A -> bool) (l : list A) :
  is_Some (List.find f l) <-> exists x, x ∈ l /\ f x = true.
Proof.
  split.
  - intros [x Hx]. apply find_some in Hx as [Hin Hf].
    exists x. split; [by apply list_elem_of_In | done].
  - intros (x & Hin & Hf). destruct (List.find f l) eqn:Hfind; [eauto|].
    rewrite find_is_None in Hfind. rewrite (Hfind x Hin) in Hf. done.
Qed.

Lemma find_absent m id d :
  absent m id d -> List.find (has_id id) (collection m d) = None.
Proof.
  intros H. apply find_is_None. intros x Hx.
  apply String.eqb_neq. by apply H.
Qed.

Lemma lookup_id_Some E m id d R :
  lookup_id E m id d = Some R ->
  exists s, cast_id E id = Some (Some s)
            /\ List.find (has_id s) (collection m d) = Some R.
Proof.
  unfold lookup_id. destruct (cast_id E id) as [[s|]|]; simpl; [eauto|done|done].
Qed.


Lemma read_only_iff w :
  read_only w <-> forallb (fun c => negb (is_mutation c)) (calls w) = true.
Proof.
  unfold read_only. rewrite forallb_forall, List.Forall_forall.
  split; intros H c Hc; specialize (H c Hc); by destruct (is_mutation c).
Qed.

(** ** Running a handler *)

(** Unfolding of a handler down to the primitives of the monad. *)
Ltac unfold_handler :=
  unfold run, handler, createBootcamp, updateBootcamp, deleteBootcamp,
    getBootcampsInRadius, bootcampPhotoUpload, getCourse, addCourse,
    updateCourse, deleteCourse, try_catch, findById, findOne, find_geoWithin,
    create, findByIdAndUpdate, remove, geocode, mv, populate_bootcamp, next,
    json, deref, throw, emit, call, put_db, get_db;
  unfold mbind, M_bind, mret, M_ret, option_bind.

(** Case analysis on the innermost test on which the goal is stuck. *)
Ltac inner_destruct :=
  match goal with
  | |- context [match ?x with _ => _ end] =>
      lazymatch x with
      | context [match _ with _ => _ end] => fail
      | _ => destruct x eqn:?
      end
  end.

Ltac use_equations :=
  repeat match goal with
         | H : ?x = _ |- context [?x] => rewrite H
         end.

Ltac evaluate :=
  repeat (simpl; first [progress use_equations | inner_destruct]); simpl.

#[local] Arguments validate : simpl never.
#[local] Arguments validate_update : simpl never.
#[local] Arguments strict : simpl never.
#[local] Arguments cast_paths : simpl never.
#[local] Arguments assign : simpl never.
#[local] Arguments matches : simpl never.
#[local] Arguments has_id : simpl never.
#[local] Arguments cast_id : simpl never.
#[local] Arguments parseInt : simpl never.

Section Gate.

Variables (E : collaborators) (op : mutation) (req : request) (d : database).
Variables (U : principal) (R : obj) (s : string).

Hypothesis principal_present : user req = Some U.
Hypothesis id_cast : cast_id E (param req (resource_param op)) = Some (Some s).
Hypothesis resource_found :
  List.find (has_id s) (collection (resource_model op) d) = Some R.

(** When the test of the gate succeeds, the handler stops there: one read of
    the store, one [InvalidCredentialException]. *)
Lemma run_denied :
  gate U (Some R) = true ->
  run (handler E op req) d =
  {| db := d;
     calls := [FindById (resource_model op) (param req (resource_param op))];
     trace := [Next (InvalidCredentialException (denial_message op req (Some R)))] |}.
Proof using principal_present id_cast resource_found.
  unfold gate. cbn. intros G.
  destruct op; cbn in id_cast, resource_found |- *;
    unfold_handler; unfold user_id, user_role; evaluate; reflexivity.
Qed.


End Gate.

(** ** The ownership gate *)



(** The owner recorded as a string deletes the bootcamp; a stranger does
    not. *)
Example owner_deletes_bootcamp :
  let w := run (deleteBootcamp demo (demo_request [("id", "B1")] owner)) demo_db in
  bootcamps (db w) = []
  /\ trace w = [Json {| status := 200; success := true; count := None; data := PEmpty |}].
Proof. split; reflexivity. Qed.

Example stranger_is_refused :
  let w := run (deleteBootcamp demo (demo_request [("id", "B1")] stranger)) demo_db in
  db w = demo_db
  /\ trace w = [Next (InvalidCredentialException
                        "User B1 is not authorized to delete this bootcamp")].
Proof. split; reflexivity. Qed.

(** The comparison of the gate is [!==]: when the owner field holds an
    ObjectId object, as the [user] path of [CourseSchema] makes it, it differs
    from every string id, and only an admin is let through. *)
Lemma object_id_owner_is_refused E op req d U R r hex :
  user req = Some U ->
  fetched E op req d = Some R ->
  field R "user" = VObjectId r hex ->
  p_role U <> "admin" ->
  denied_with (denial_message op req (Some R)) (run (handler E op req) d).
Proof.
  intros HU HR Hobj Hrole. apply lookup_id_Some in HR as (s & Hc & Hf).
  assert (gate U (Some R) = true) as G.
  { unfold gate. simpl. rewrite Hobj. simpl.
    by apply negb_true_iff, String.eqb_neq. }
  unfold denied_with. by rewrite (run_denied E op req d U R s HU Hc Hf G).
Qed.

Example course_owner_is_refused :
  trace (run (updateCourse demo (demo_request [("id", "C1")] owner)) demo_db)
  = [Next (InvalidCredentialException
             "User C1 is not authorized to update course C1")].
Proof. reflexivity. Qed.

(** The publisher that owns [B1] adds a course to it; [Course.create] casts
    [user] to an ObjectId, and the same publisher is then refused the update
    of that course. *)
Example creator_is_refused_its_course :
  let w := run (addCourse demo
                  (with_body course_body (demo_request [("bootcampId", "B1")] owner)))
             demo_db in
  (fun c => (field c "_id", field c "user")) <$> courses (db w)
  = [(VObjectId 1 "C1", VObjectId 2 "U1"); (VObjectId 4 "n4", VObjectId 6 "U1")]
  /\ trace (run (updateCourse demo (demo_request [("id", "n4")] owner)) (db w))
     = [Next (InvalidCredentialException
                "User n4 is not authorized to update course n4")].
Proof. split; reflexivity. Qed.

(** ** Lookups that give [null] in the course controller *)

(** C9. For every request for a single course whose id is absent from the
    store, [getCourse] calls [next] with the [NotFoundException] and then
    still sends the 200 response, whose data is the [null] course: the
    not-found branch does not end the handler. *)
Theorem getCourse_absent E req d id :
  params req !! "id" = Some id ->
  is_object_id E id = true ->
  absent Course id d ->
  let w := run (getCourse E req) d in
  trace w = [Next (NotFoundException (VString id));
             Json {| status := 200; success := true; count := None; data := PNull |}]
  /\ db w = d.
Proof.
  intros Hid Hoid Habs. pose proof (find_absent Course id d Habs) as Hfind.
  simpl in Hfind. unfold_handler. unfold param, cast_id. rewrite Hid.
  evaluate. split; reflexivity.
Qed.

Lemma getCourse_absent_witness :
  let w := run (getCourse demo (demo_request [("id", "C7")] stranger)) demo_db in
  trace w = [Next (NotFoundException (VString "C7"));
             Json {| status := 200; success := true; count := None; data := PNull |}]
  /\ db w = demo_db.
Proof.
  apply (getCourse_absent demo (demo_request [("id", "C7")] stranger) demo_db "C7");
    [reflexivity | reflexivity |].
  intros x Hx. apply list_elem_of_In in Hx. simpl in Hx.
  destruct Hx as [<-|[]]. vm_compute. discriminate.
Defined.

(** ** Casting and strict mode *)

(** Casting leaves a field as it is, or turns its string into an ObjectId with
    the same text; the latter only on the paths it is given. *)
Lemma cast_paths_lookup ks r (d : obj) k :
  cast_paths ks r d !! k = d !! k
  \/ exists r' s, k ∈ ks /\ d !! k = Some (VString s)
                  /\ cast_paths ks r d !! k = Some (VObjectId r' s).
Proof.
  revert r d. induction ks as [|k0 ks IH]; intros r d; [by left|].
  unfold cast_paths; fold cast_paths.
  destruct (d !! k0) as [[|s0|]|] eqn:Hk0;
    try (destruct (IH (S r) d) as [->|(r' & s & Hin & Hd & ->)];
         [by left | right; exists r', s; split_and!; [by right|done|done]]).
  destruct (decide (k = k0)) as [->|Hne].
  - right. destruct (IH (S r) (<[k0 := VObjectId r s0]> d))
      as [->|(r' & s & _ & Hd & _)].
    + exists r, s0. split_and!; [left|done|]. by rewrite lookup_insert_eq.
    + by rewrite lookup_insert_eq in Hd.
  - destruct (IH (S r) (<[k0 := VObjectId r s0]> d))
      as [->|(r' & s & Hin & Hd & ->)].
    + left. by rewrite lookup_insert_ne.
    + right. exists r', s. rewrite lookup_insert_ne in Hd by done.
      split_and!; [by right|done|done].
Qed.

Lemma cast_paths_text ks r (d : obj) k :
  to_string (field (cast_paths ks r d) k) = to_string (field d k).
Proof.
  unfold field.
  destruct (cast_paths_lookup ks r d k) as [->|(r' & s & _ & -> & ->)]; done.
Qed.

Lemma cast_paths_other ks r (d : obj) k :
  k ∉ ks -> cast_paths ks r d !! k = d !! k.
Proof.
  intros Hk. destruct (cast_paths_lookup ks r d k) as [->|(r' & s & Hin & _)]; done.
Qed.

Lemma cast_paths_None ks r (d : obj) k :
  d !! k = None -> cast_paths ks r d !! k = None.
Proof.
  intros Hk. destruct (cast_paths_lookup ks r d k) as [->|(r' & s & _ & Hd & _)];
    congruence.
Qed.

Lemma strict_lookup sch (d : obj) k :
  strict sch d !! k = if bool_decide (k ∈ paths sch) then d !! k else None.
Proof.
  unfold strict. destruct (d !! k) as [v|] eqn:Hd.
  - case_bool_decide as Hin.
    + apply map_lookup_filter_Some. split; [done|]. simpl. by apply bool_decide_pack.
    + apply map_lookup_filter_None. right. intros v' Hv'. simpl.
      intros H. apply Hin. by apply bool_decide_unpack in H.
  - replace (if bool_decide (k ∈ paths sch) then None else None) with (@None value)
      by (by case_bool_decide).
    apply map_lookup_filter_None. by left.
Qed.

(** ** Creation of a bootcamp: one per owner *)

Lemma matches_user v b : matches {["user" := v]} b = same_id (field b "user") v.
Proof.
  unfold matches. rewrite map_to_list_singleton. simpl. apply andb_true_r.
Qed.

Lemma findOne_user_Some u d :
  is_Some (List.find (matches {["user" := VString (p_id u)]}) (bootcamps d))
  <-> owns_bootcamp u d.
Proof.
  rewrite find_is_Some. unfold owns_bootcamp.
  split; intros (b & Hin & Hb); exists b; by rewrite matches_user in *.
Qed.

Lemma role_test r : strict_neq (VString r) admin = false <-> r = "admin".
Proof. unfold strict_neq, admin. simpl. by rewrite negb_false_iff, String.eqb_eq. Qed.

(** A field of the body that the schema declares is found, with the same
    text, in the created document. *)
Lemma created_field sch r r' hex (b : obj) k v :
  k <> "_id" ->
  k ∈ paths sch ->
  b !! k = Some v ->
  to_string (field (<["_id" := VObjectId r hex]>
                      (cast_paths (object_ids sch) r' (strict sch b))) k)
  = to_string v.
Proof.
  intros Hk Hin Hb. unfold field at 1. rewrite lookup_insert_ne by done.
  fold (field (cast_paths (object_ids sch) r' (strict sch b)) k).
  rewrite cast_paths_text. unfold field. rewrite strict_lookup.
  rewrite bool_decide_true by done. by rewrite Hb.
Qed.

(** C2. For every creation of a bootcamp by a principal [U]: if [U] already
    owns a bootcamp and [U.role] is not ['admin'], the creation is denied (a
    [BadRequestException] that names [U], an unchanged database, no writing
    call); if [U] owns none, or [U.role] is ['admin'], the handler goes on to
    [Bootcamp.create] with the body in which [user] is [U.id], and a body
    that the schema validates is inserted and answered with 201. *)
Theorem createBootcamp_singleton E req d U :
  user req = Some U ->
  let w := run (createBootcamp E req) d in
  let body' := <["user" := VString (p_id U)]> (body req) in
  (owns_bootcamp U d -> p_role U <> "admin" ->
   trace w = [Next (BadRequestException (Some
                ("The uuser with ID " +:+ p_id U
                   +:+ " has already published a bootcamp")))]
   /\ db w = d /\ read_only w)
  /\ (~ owns_bootcamp U d \/ p_role U = "admin" ->
      Create Bootcamp body' ∈ calls w
      /\ (validate E (BootcampSchema E) body' = true ->
          exists doc,
            bootcamps (db w) = (bootcamps d ++ [doc])%list
            /\ courses (db w) = courses d
            /\ ("user" ∈ paths (BootcampSchema E) ->
                to_string (field doc "user") = p_id U)
            /\ trace w = [Json {| status := 201; success := true; count := None;
                                  data := PDoc doc |}])).
Proof.
  intros HU. cbv zeta.
  pose proof (findOne_user_Some U d) as Hown.
  pose proof (role_test (p_role U)) as Hrole.
  unfold_handler. unfold user_id, user_role. rewrite HU. simpl.
  destruct (List.find _ (bootcamps d)) as [b|] eqn:Hfind; simpl.
  - destruct (strict_neq (VString (p_role U)) admin) eqn:Hadmin; simpl.
    + split.
      * intros _ _. repeat split. apply read_only_iff. reflexivity.
      * intros [Hno|Hr]; [exfalso; apply Hno, Hown; eauto|].
        apply Hrole in Hr. congruence.
    + split; [intros _ Hr; exfalso; apply Hr, Hrole; reflexivity|].
      intros _. evaluate.
      * split; [by right; left|]. intros _. eexists. split_and!; try done.
        intros Hin.
        apply (created_field _ _ _ _ _ "user" (VString (p_id U)));
          [done | done | apply lookup_insert_eq].
      * split; [by right; left | done].
  - split; [intros Hyes; apply Hown in Hyes; by destruct Hyes|].
    intros _. evaluate.
    + split; [by right; left|]. intros _. eexists. split_and!; try done.
      intros Hin.
        apply (created_field _ _ _ _ _ "user" (VString (p_id U)));
          [done | done | apply lookup_insert_eq].
    + split; [by right; left | done].
Qed.

Lemma createBootcamp_singleton_witness :
  let req := with_body {["name" := VString "Second"]} (demo_request [] owner) in
  let w := run (createBootcamp demo req) demo_db in
  let body' := <["user" := VString (p_id owner)]> (body req) in
  (owns_bootcamp owner demo_db -> p_role owner <> "admin" ->
   trace w = [Next (BadRequestException (Some
                ("The uuser with ID " +:+ p_id owner
                   +:+ " has already published a bootcamp")))]
   /\ db w = demo_db /\ read_only w)
  /\ (~ owns_bootcamp owner demo_db \/ p_role owner = "admin" ->
      Create Bootcamp body' ∈ calls w
      /\ (validate demo (BootcampSchema demo) body' = true ->
          exists doc,
            bootcamps (db w) = (bootcamps demo_db ++ [doc])%list
            /\ courses (db w) = courses demo_db
            /\ ("user" ∈ paths (BootcampSchema demo) ->
                to_string (field doc "user") = p_id owner)
            /\ trace w = [Json {| status := 201; success := true; count := None;
                                  data := PDoc doc |}])).
Proof.
  apply (createBootcamp_singleton demo
           (with_body {["name" := VString "Second"]} (demo_request [] owner))
           demo_db owner).
  reflexivity.
Defined.

(** The owner of [B1] is denied a second bootcamp; a principal that owns
    none, and an admin, create one. *)
Example second_bootcamp_denied :
  trace (run (createBootcamp demo
                (with_body {["name" := VString "Second"]} (demo_request [] owner)))
           demo_db)
  = [Next (BadRequestException
             (Some "The uuser with ID U1 has already published a bootcamp"))].
Proof. reflexivity. Qed.

Example first_bootcamp_created :
  let w := run (createBootcamp demo
                  (with_body {["name" := VString "First"]} (demo_request [] stranger)))
             demo_db in
  length (bootcamps (db w)) = 2
  /\ status <$> (trace w ≫= fun e => match e with Json r => [r] | _ => [] end) = [201].
Proof. split; reflexivity. Qed.



(** An admin adds a course to a bootcamp that does not exist; a publisher is
    told both that the bootcamp is not found and that it is not authorized. *)
Example admin_adds_orphan_course :
  let w := run (addCourse demo
                  (with_body course_body (demo_request [("bootcampId", "B7")] root)))
             demo_db in
  (fun c => to_string (field c "bootcamp")) <$> courses (db w) = ["B1"; "B7"]
  /\ validate demo CourseSchema
       (<["user" := VString "U9"]> (<["bootcamp" := VString "B7"]> course_body)) = true.
Proof. split; reflexivity. Qed.

Example publisher_orphan_course_refused :
  trace (run (addCourse demo
                (with_body course_body (demo_request [("bootcampId", "B7")] owner)))
           demo_db)
  = [Next (NotFoundException (VString "B7"));
     Next (InvalidCredentialException
             "User undefined is not authorized to add a course to bootcamp undefined")].
Proof. reflexivity. Qed.

(** ** Validation of an uploaded photo *)

Lemma asset_None req :
  asset req = None
  <-> files req = None \/ exists fs, files req = Some fs /\ fs !! "file" = None.
Proof.
  unfold asset. destruct (files req) as [fs|]; simpl.
  - split; [intros H; right; eauto | intros [H|(fs' & [= <-] & H)]; done].
  - split; [by left | done].
Qed.

(** C3, as the code has it.  For every uploaded asset and configured maximum
    size, once the bootcamp is found and the principal is let through, the
    upload is rejected with a [BadRequestException] exactly when the asset is
    absent, or its mimetype does not begin with ['image'], or its size
    strictly exceeds the maximum; a rejection writes nothing.  In particular
    ['text/plain'] is rejected whatever the size, ['image/png'] with a size
    equal to the maximum is accepted, and one byte more is rejected. *)
Theorem upload_validation E req d U R m :
  user req = Some U ->
  fetched E BootcampPhotoUpload req d = Some R ->
  p_role U = "admin" \/ field R "user" = VString (p_id U) ->
  parseInt (to_string (max_file_upload E)) = Some m ->
  let w := run (bootcampPhotoUpload E req) d in
  (rejected w <->
   asset req = None
   \/ exists f, asset req = Some f
                /\ (startsWith (f_mimetype f) "image" = false
                    \/ (m < Z.of_nat (f_size f))%Z))
  /\ (rejected w -> db w = d /\ read_only w)
  /\ (forall f, asset req = Some f -> f_mimetype f = "text/plain" -> rejected w)
  /\ (forall f, asset req = Some f -> f_mimetype f = "image/png" ->
                Z.of_nat (f_size f) = m -> ~ rejected w)
  /\ (forall f, asset req = Some f -> Z.of_nat (f_size f) = (m + 1)%Z -> rejected w).
Proof.
  intros HU HR Hgate Hmax. apply lookup_id_Some in HR as (s & Hc & Hf).
  apply gate_spec in Hgate. cbv zeta. simpl in Hc, Hf.
  assert (forall msg, rejected {| db := d;
                                  calls := [FindById Bootcamp (param req "id")];
                                  trace := [Next (BadRequestException msg)] |}) as Hrej
    by (intros msg; by exists msg).
  unfold_handler. unfold user_id, user_role, asset. rewrite HU, Hc. simpl.
  rewrite Hf, Hgate. simpl.
  destruct (files req) as [fs|]; simpl.
  2:{ split_and!; try done.
      - split; [by left | intros _; apply Hrej].
      - intros _. split; [done|]. apply read_only_iff. reflexivity. }
  destruct (fs !! "file") as [f|]; simpl.
  2:{ split_and!; try done.
      - split; [by left | intros _; apply Hrej].
      - intros _. split; [done|]. apply read_only_iff. reflexivity. }
  unfold gt_number. rewrite Hmax.
  destruct (startsWith (f_mimetype f) "image") eqn:Hmime; simpl.
  2:{ split_and!; try done.
      - split; [intros _; right; eauto | intros _; apply Hrej].
      - intros _. split; [done|]. apply read_only_iff. reflexivity.
      - intros f' [= <-] Hpng. rewrite Hpng in Hmime. done. }
  destruct (Z.ltb_spec m (Z.of_nat (f_size f))) as [Hlt|Hge]; simpl.
  { split_and!; try done.
    - split; [intros _; right; eauto | intros _; apply Hrej].
    - intros _. split; [done|]. apply read_only_iff. reflexivity.
    - intros f' [= <-] _ Heq. lia. }
  assert (forall w', (forall msg, trace w' <> [Next (BadRequestException msg)]) ->
                     ~ rejected w') as Hacc.
  { intros w' He (msg & Hmsg). by apply (He msg). }
  evaluate.
  all: (split_and!;
        [ split; [intros Hr; exfalso; revert Hr; (apply Hacc; intros ?; discriminate)
                 | intros [|(f' & [= <-] & [|])]; [done|congruence|lia] ]
        | intros Hr; exfalso; revert Hr; (apply Hacc; intros ?; discriminate)
        | intros f' [= <-] Htxt; rewrite Htxt in Hmime; done
        | intros f' _ _ _; (apply Hacc; intros ?; discriminate)
        | intros f' [= <-] Heq; lia ]).
Qed.

Lemma upload_validation_witness :
  let req := with_file (png 1000) (demo_request [("id", "B1")] owner) in
  let w := run (bootcampPhotoUpload demo req) demo_db in
  (rejected w <->
   asset req = None
   \/ exists f, asset req = Some f
                /\ (startsWith (f_mimetype f) "image" = false
                    \/ (1000 < Z.of_nat (f_size f))%Z))
  /\ (rejected w -> db w = demo_db /\ read_only w)
  /\ (forall f, asset req = Some f -> f_mimetype f = "text/plain" -> rejected w)
  /\ (forall f, asset req = Some f -> f_mimetype f = "image/png" ->
                Z.of_nat (f_size f) = 1000%Z -> ~ rejected w)
  /\ (forall f, asset req = Some f -> Z.of_nat (f_size f) = (1000 + 1)%Z -> rejected w).
Proof.
  apply (upload_validation demo
           (with_file (png 1000) (demo_request [("id", "B1")] owner))
           demo_db owner B1 1000);
    [reflexivity | reflexivity | right; reflexivity | reflexivity].
Defined.

(** C3, as stated, fails: a mimetype that begins with ['image'] but not with
    ['image/'] is accepted. *)
Lemma upload_prefix_counterexample :
  let f := {| f_name := "logo.png"; f_mimetype := "imagery"; f_size := 10;
              f_data := "RAW" |} in
  let w := run (bootcampPhotoUpload demo
                  (with_file f (demo_request [("id", "B1")] owner))) demo_db in
  startsWith (f_mimetype f) "image/" = false
  /\ ~ rejected w
  /\ trace w = [Json {| status := 200; success := true; count := None;
                        data := PText "photo_B1.png" |}]
  /\ disk (db w) !! "./public/uploads/photo_B1.png" = Some "RAW".
Proof.
  split_and!; try reflexivity.
  intros (msg & Hmsg). vm_compute in Hmsg. discriminate.
Qed.

(** The three cases that the specification singles out. *)
Example text_plain_rejected :
  trace (run (bootcampPhotoUpload demo
                (with_file {| f_name := "notes.txt"; f_mimetype := "text/plain";
                              f_size := 0; f_data := EmptyString |}
                   (demo_request [("id", "B1")] owner))) demo_db)
  = [Next (BadRequestException (Some "Please upload an image file"))].
Proof. reflexivity. Qed.

Example png_at_the_maximum_accepted :
  trace (run (bootcampPhotoUpload demo
                (with_file (png 1000) (demo_request [("id", "B1")] owner))) demo_db)
  = [Json {| status := 200; success := true; count := None;
             data := PText "photo_B1.png" |}].
Proof. reflexivity. Qed.

Example png_one_byte_over_rejected :
  trace (run (bootcampPhotoUpload demo
                (with_file (png 1001) (demo_request [("id", "B1")] owner))) demo_db)
  = [Next (BadRequestException (Some "Please upload an image size less than 1000"))].
Proof. reflexivity. Qed.

Example no_file_rejected :
  trace (run (bootcampPhotoUpload demo (demo_request [("id", "B1")] owner)) demo_db)
  = [Next (BadRequestException (Some "Please upload a file"))].
Proof. reflexivity. Qed.

(** ** The name given to an uploaded photo *)

Lemma has_id_text s (x : obj) : has_id s x = true <-> to_string (field x "_id") = s.
Proof. unfold has_id. apply String.eqb_eq. Qed.

Lemma find_has_id s l (R : obj) :
  List.find (has_id s) l = Some R -> to_string (field R "_id") = s.
Proof. intros H. apply find_some in H as [_ H]. by apply has_id_text. Qed.

(** Replacing the documents of identifier [s] by [new], which has this
    identifier too: a lookup then finds [new]. *)
Lemma find_replace s (new : obj) l R :
  List.find (has_id s) l = Some R ->
  has_id s new = true ->
  List.find (has_id s) (map (fun x => if has_id s x then new else x) l) = Some new.
Proof.
  intros Hfind Hnew. induction l as [|x l IH]; simpl in *; [done|].
  destruct (has_id s x) eqn:Hx.
  - by rewrite Hnew.
  - rewrite Hx. by apply IH.
Qed.

(** The id of the route is the text of the [_id] of the document that the
    lookup gives. *)
Lemma fetched_id E m (req : request) k d R :
  lookup_id E m (param req k) d = Some R ->
  param req k = VString (to_string (field R "_id")).
Proof.
  intros H. apply lookup_id_Some in H as (s & Hc & Hf).
  apply find_has_id in Hf. unfold param, cast_id in *.
  destruct (params req !! k) as [t|]; simpl in *; [|done].
  destruct (is_object_id E t); congruence.
Qed.

(** An update of [photo] alone, on a schema that declares [photo] as a plain
    path. *)
Lemma photo_update sch r name (R : obj) :
  "photo" ∈ paths sch ->
  "photo" ∉ object_ids sch ->
  let new := assign (cast_paths (object_ids sch) r (strict sch {["photo" := VString name]})) R in
  field new "photo" = VString name
  /\ field new "_id" = field R "_id"
  /\ field new "user" = field R "user".
Proof.
  intros Hin Hnot new. subst new. unfold assign, field. split_and!.
  - erewrite lookup_union_Some_l; [done|].
    rewrite cast_paths_other by done. rewrite strict_lookup.
    rewrite bool_decide_true by done. apply lookup_singleton_eq.
  - rewrite lookup_union_r; [done|]. apply cast_paths_None.
    rewrite strict_lookup. case_bool_decide; [|done].
    by apply lookup_singleton_ne.
  - rewrite lookup_union_r; [done|]. apply cast_paths_None.
    rewrite strict_lookup. case_bool_decide; [|done].
    by apply lookup_singleton_ne.
Qed.

Lemma photo_castable E sch name :
  "photo" ∉ object_ids sch ->
  forallb (fun k => castable E (field {["photo" := VString name]} k)) (object_ids sch)
  = true.
Proof.
  intros Hnot. apply forallb_forall. intros k Hk. unfold field.
  rewrite lookup_singleton_ne; [done|]. intros <-. by apply Hnot, list_elem_of_In.
Qed.

(** An accepted upload. *)
Lemma accepted_upload E req d U R f :
  user req = Some U ->
  fetched E BootcampPhotoUpload req d = Some R ->
  p_role U = "admin" \/ field R "user" = VString (p_id U) ->
  asset req = Some f ->
  startsWith (f_mimetype f) "image" = true ->
  gt_number (Z.of_nat (f_size f)) (parseInt (to_string (max_file_upload E))) = false ->
  let r := to_string (field R "_id") in
  let name := "photo_" +:+ r +:+ path_ext E (f_name f) in
  let path := to_string (file_upload_path E) +:+ "/" +:+ name in
  mv_error E path = false ->
  "photo" ∈ paths (BootcampSchema E) ->
  "photo" ∉ object_ids (BootcampSchema E) ->
  let w := run (bootcampPhotoUpload E req) d in
  param req "id" = VString r
  /\ trace w = [Json {| status := 200; success := true; count := None;
                        data := PText name |}]
  /\ disk (db w) = <[path := f_data f]> (disk d)
  /\ exists R', fetched E BootcampPhotoUpload req (db w) = Some R'
                /\ field R' "photo" = VString name
                /\ field R' "_id" = field R "_id"
                /\ field R' "user" = field R "user".
Proof.
  intros HU HR Hgate Hasset Hmime Hsize r name path Hmv Hin Hnot.
  pose proof (fetched_id E Bootcamp req "id" d R HR) as Hparam. fold r in Hparam.
  unfold fetched in *. simpl in *.
  apply lookup_id_Some in HR as (s & Hc & Hf). simpl in Hf.
  pose proof (find_has_id s _ R Hf) as Hs. fold r in Hs. subst s.
  apply gate_spec in Hgate.
  pose proof (photo_castable E (BootcampSchema E) name Hnot) as Hcast.
  destruct (photo_update (BootcampSchema E) (next_ref d) name R Hin Hnot)
    as (Hphoto & Hid & Huser).
  unfold asset in Hasset. destruct (files req) as [fs|] eqn:Hfiles; [|done].
  simpl in Hasset. cbv zeta. split; [done|].
  unfold_handler. unfold user_id, user_role, lookup_id. rewrite HU. simpl.
  rewrite Hc. simpl. rewrite Hf, Hgate, Hfiles. simpl. rewrite Hasset. simpl.
  rewrite Hmime, Hsize. simpl. fold r. fold name. fold path. rewrite Hmv. simpl.
  rewrite ?Hc. simpl. rewrite ?Hcast, ?Hf. simpl. split_and!; try done.
  eexists. split_and!; [|exact Hphoto|exact Hid|exact Huser]. fold r.
  apply (find_replace r _ _ R Hf). apply has_id_text. by rewrite Hid.
Qed.

(** C7, as the code has it.  On acceptance of an upload for the bootcamp of
    id [r] (an asset that passes the two checks, stored without error by the
    file sink), the name given to the file is ['photo_'] followed by [r]
    followed by the extension of the original name; the answer carries that
    name, the [photo] field of the bootcamp becomes that name, and the file is
    written under that name in the upload directory, replacing the file of
    that name if there is one (and no other file). *)
Theorem upload_assigned_name E req d U R f :
  user req = Some U ->
  fetched E BootcampPhotoUpload req d = Some R ->
  p_role U = "admin" \/ field R "user" = VString (p_id U) ->
  asset req = Some f ->
  startsWith (f_mimetype f) "image" = true ->
  gt_number (Z.of_nat (f_size f)) (parseInt (to_string (max_file_upload E))) = false ->
  let r := to_string (field R "_id") in
  let name := "photo_" +:+ r +:+ path_ext E (f_name f) in
  let path := to_string (file_upload_path E) +:+ "/" +:+ name in
  mv_error E path = false ->
  "photo" ∈ paths (BootcampSchema E) ->
  "photo" ∉ object_ids (BootcampSchema E) ->
  let w := run (bootcampPhotoUpload E req) d in
  param req "id" = VString r
  /\ trace w = [Json {| status := 200; success := true; count := None;
                        data := PText name |}]
  /\ (forall p, disk (db w) !! p = if decide (path = p) then Some (f_data f)
                                   else disk d !! p)
  /\ exists R', fetched E BootcampPhotoUpload req (db w) = Some R'
                /\ field R' "photo" = VString name
                /\ field R' "_id" = field R "_id".
Proof.
  intros HU HR Hgate Hasset Hmime Hsize r name path Hmv Hin Hnot w.
  destruct (accepted_upload E req d U R f HU HR Hgate Hasset Hmime Hsize Hmv Hin Hnot)
    as (Hparam & Htrace & Hdisk & R' & HR' & Hphoto & Hid & _).
  split_and!; [done | done | | by exists R'].
  intros p. fold w in Hdisk. rewrite Hdisk. fold r name path.
  apply lookup_insert.
Qed.

Lemma upload_assigned_name_witness :
  let req := with_file (png 10) (demo_request [("id", "B1")] owner) in
  let r := to_string (field B1 "_id") in
  let name := "photo_" +:+ r +:+ path_ext demo (f_name (png 10)) in
  let path := to_string (file_upload_path demo) +:+ "/" +:+ name in
  let w := run (bootcampPhotoUpload demo req) demo_db in
  param req "id" = VString r
  /\ trace w = [Json {| status := 200; success := true; count := None;
                        data := PText name |}]
  /\ (forall p, disk (db w) !! p = if decide (path = p) then Some (f_data (png 10))
                                   else disk demo_db !! p)
  /\ exists R', fetched demo BootcampPhotoUpload req (db w) = Some R'
                /\ field R' "photo" = VString name
                /\ field R' "_id" = field B1 "_id".
Proof.
  apply (upload_assigned_name demo
           (with_file (png 10) (demo_request [("id", "B1")] owner))
           demo_db owner B1 (png 10));
    [reflexivity | reflexivity | right; reflexivity | reflexivity | reflexivity
    | reflexivity | reflexivity | | ].
  - apply list_elem_of_In. simpl. tauto.
  - simpl. apply not_elem_of_nil.
Defined.

(** C7, as stated, fails on its last part: a second upload to the same
    bootcamp, of a file with another extension, leaves the prior file where
    it was. *)
Lemma upload_other_extension_counterexample :
  let second := {| f_name := "logo.jpg"; f_mimetype := "image/jpeg"; f_size := 20;
                   f_data := "JPG" |} in
  let d := upload_to_B1 second (upload_to_B1 (png 10) demo_db) in
  disk d !! "./public/uploads/photo_B1.png" = Some "PNG"
  /\ disk d !! "./public/uploads/photo_B1.jpg" = Some "JPG"
  /\ (fun b => field b "photo") <$> bootcamps d = [VString "photo_B1.jpg"].
Proof. split_and!; reflexivity. Qed.

(** With the same extension, the second file takes the place of the first. *)
Example upload_same_extension_overwrites :
  let second := {| f_name := "logo.png"; f_mimetype := "image/png"; f_size := 20;
                   f_data := "NEW" |} in
  let d := upload_to_B1 second (upload_to_B1 (png 10) demo_db) in
  map_to_list (disk d) = [("./public/uploads/photo_B1.png", "NEW")]
  /\ (fun b => field b "photo") <$> bootcamps d = [VString "photo_B1.png"].
Proof. split; reflexivity. Qed.

(** ** The radius of the geospatial query *)

Lemma Qle_0_div n d : (0 <= n # d)%Q <-> (0 <= n)%Z.
Proof. unfold Qle. simpl. lia. Qed.

(** The calls of [getBootcampsInRadius] once the geocoder has answered: the
    geospatial query is issued for every distance, with the radius
    [parseInt(distance) / 3963]. *)
Lemma radius_calls E req d lat lng rest :
  geocoder_geocode E (param req "zipcode") = Some ((lat, lng) :: rest) ->
  calls (run (getBootcampsInRadius E req) d)
  = [Geocode (param req "zipcode");
     FindGeoWithin Bootcamp (lng, lat)
       (div_number (parseInt (to_string (param req "distance"))) 3963)].
Proof.
  intros Hgeo. unfold_handler. rewrite Hgeo. simpl.
  destruct (geoWithin E _ _ _); reflexivity.
Qed.

(** C4, as the code has it.  For every center that the geocoder gives and
    every distance whose [parseInt] is the integer [n], the radius of the
    geospatial query is [n / 3963], the distance in miles over the radius of
    the Earth in miles (100 gives [100/3963]).  The digits after a decimal
    point are dropped by [parseInt], and no request is read in kilometers. *)
Theorem radius_in_miles E req d distance n lat lng rest :
  params req !! "distance" = Some distance ->
  parseInt distance = Some n ->
  geocoder_geocode E (param req "zipcode") = Some ((lat, lng) :: rest) ->
  calls (run (getBootcampsInRadius E req) d)
  = [Geocode (param req "zipcode");
     FindGeoWithin Bootcamp (lng, lat) (Some (n # 3963))].
Proof.
  intros Hd Hn Hgeo. rewrite (radius_calls E req d lat lng rest Hgeo).
  unfold param at 2. rewrite Hd. simpl. by rewrite Hn.
Qed.

Lemma radius_in_miles_witness :
  calls (run (getBootcampsInRadius demo (radius_request "100")) demo_db)
  = [Geocode (param (radius_request "100") "zipcode");
     FindGeoWithin Bootcamp ((-71) # 1, 42 # 1) (Some (100 # 3963))].
Proof.
  apply (radius_in_miles demo (radius_request "100") demo_db "100" 100
           (42 # 1) ((-71) # 1) []); reflexivity.
Defined.

(** C4, as stated, fails: 12.7 miles give [12/3963], not [12.7/3963]; and a
    distance of 100 cannot be given in kilometers, it gives [100/3963], not
    [100/6378]. *)
Lemma radius_counterexample :
  calls (run (getBootcampsInRadius demo (radius_request "12.7")) demo_db)
  = [Geocode (VString "02118");
     FindGeoWithin Bootcamp ((-71) # 1, 42 # 1) (Some (12 # 3963))]
  /\ ~ (12 # 3963 == (127 # 10) / (3963 # 1))%Q
  /\ calls (run (getBootcampsInRadius demo (radius_request "100")) demo_db)
     = [Geocode (VString "02118");
        FindGeoWithin Bootcamp ((-71) # 1, 42 # 1) (Some (100 # 3963))]
  /\ ~ (100 # 3963 == 100 # 6378)%Q.
Proof. split_and!; try reflexivity; by vm_compute. Qed.

(** C5, as the code has it.  The distance is not validated: whatever it is,
    the conversion is made and the geospatial query is issued with the radius
    [parseInt(distance) / 3963].  That radius is a non-negative number exactly
    when [parseInt] reads a non-negative integer in the distance; it is
    negative for a negative distance and NaN for one that is not numeric. *)
Theorem radius_not_validated E req d lat lng rest :
  geocoder_geocode E (param req "zipcode") = Some ((lat, lng) :: rest) ->
  let distance := parseInt (to_string (param req "distance")) in
  let radius := div_number distance 3963 in
  calls (run (getBootcampsInRadius E req) d)
  = [Geocode (param req "zipcode"); FindGeoWithin Bootcamp (lng, lat) radius]
  /\ ((exists q, radius = Some q /\ (0 <= q)%Q)
      <-> exists n, distance = Some n /\ (0 <= n)%Z)
  /\ (forall n, distance = Some n -> (n < 0)%Z ->
                exists q, radius = Some q /\ (q < 0)%Q)
  /\ (distance = None -> radius = None).
Proof.
  intros Hgeo distance radius.
  split; [exact (radius_calls E req d lat lng rest Hgeo)|].
  subst radius. destruct distance as [n|]; simpl; split_and!.
  - split.
    + intros (q & [= <-] & Hq). exists n. split; [done|]. by apply Qle_0_div in Hq.
    + intros (n' & [= <-] & Hn). eexists. split; [done|]. by apply Qle_0_div.
  - intros n' [= <-] Hn. eexists. split; [done|]. unfold Qlt. simpl. lia.
  - done.
  - split; intros (? & ? & _); done.
  - done.
  - done.
Qed.

Lemma radius_not_validated_witness :
  let req := radius_request "-5" in
  let distance := parseInt (to_string (param req "distance")) in
  let radius := div_number distance 3963 in
  calls (run (getBootcampsInRadius demo req) demo_db)
  = [Geocode (param req "zipcode");
     FindGeoWithin Bootcamp ((-71) # 1, 42 # 1) radius]
  /\ ((exists q, radius = Some q /\ (0 <= q)%Q)
      <-> exists n, distance = Some n /\ (0 <= n)%Z)
  /\ (forall n, distance = Some n -> (n < 0)%Z ->
                exists q, radius = Some q /\ (q < 0)%Q)
  /\ (distance = None -> radius = None).
Proof.
  apply (radius_not_validated demo (radius_request "-5") demo_db
           (42 # 1) ((-71) # 1) []).
  reflexivity.
Defined.

(** C5, as stated, fails: a negative distance is not rejected, the query is
    issued with a negative radius and answered; a distance that is not a
    number is not rejected either, the query is issued with NaN. *)
Lemma radius_negative_counterexample :
  let w := run (getBootcampsInRadius demo (radius_request "-5")) demo_db in
  let w' := run (getBootcampsInRadius demo (radius_request "far")) demo_db in
  calls w = [Geocode (VString "02118");
             FindGeoWithin Bootcamp ((-71) # 1, 42 # 1) (Some ((-5) # 3963))]
  /\ ((-5) # 3963 < 0)%Q
  /\ trace w = [Json {| status := 200; success := true; count := Some 1;
                        data := PDocs [B1] |}]
  /\ calls w' = [Geocode (VString "02118");
                 FindGeoWithin Bootcamp ((-71) # 1, 42 # 1) None]
  /\ trace w' = [Json {| status := 200; success := true; count := Some 1;
                         data := PDocs [B1] |}].
Proof. split_and!; reflexivity. Qed.

(** ** What a denial says *)

Lemma prefix_append p c : String.prefix p (p +:+ c) = true.
Proof.
  induction p as [|a p IH]; [by destruct c|].
  change (String a p +:+ c) with (String a (p +:+ c)). simpl.
  by destruct (Ascii.ascii_dec a a).
Qed.

Lemma includes_unfold s p :
  includes s p
  = String.prefix p s || match s with
                         | EmptyString => false
                         | String _ s' => includes s' p
                         end.
Proof. by destruct s. Qed.

Lemma includes_here p c : includes (p +:+ c) p = true.
Proof. by rewrite includes_unfold, prefix_append. Qed.

Lemma includes_append a s p : includes s p = true -> includes (a +:+ s) p = true.
Proof.
  intros H. induction a as [|c a IH]; [done|].
  change (String c a +:+ s) with (String c (a +:+ s)).
  rewrite includes_unfold, IH. apply orb_true_r.
Qed.

Lemma append_empty p : p +:+ EmptyString = p.
Proof.
  induction p as [|b p IH]; [done|].
  change (String b p +:+ EmptyString) with (String b (p +:+ EmptyString)).
  by rewrite IH.
Qed.

Lemma includes_end s p : includes (s +:+ p) p = true.
Proof.
  apply includes_append. rewrite <- (append_empty p) at 1. apply includes_here.
Qed.

(** Whenever a handler denies, on a fetched resource [R], the message of the
    denial contains the id of [R]. *)
Lemma denial_names_resource E op req d R :
  fetched E op req d = Some R ->
  includes (denial_message op req (Some R)) (to_string (field R "_id")) = true.
Proof.
  intros HR. pose proof (fetched_id E _ req _ d R HR) as Hid.
  destruct op; simpl in Hid; unfold denial_message, opt_field, from_option;
    try (rewrite Hid; apply includes_append, includes_here);
    apply includes_append, includes_append, includes_end.
Qed.

(** C6 fails on [deleteCourse]: the denial names the course, and says that
    the principal is not authorized to update it; the word of the action that
    was denied is not in the message.  In [updateBootcamp] the word is
    misspelt. *)
Theorem deleteCourse_denial_names_another_action :
  let w := run (deleteCourse demo (demo_request [("id", "C1")] stranger)) demo_db in
  let w' := run (updateBootcamp demo (demo_request [("id", "B1")] stranger)) demo_db in
  denied_with "User C1 is not authorized to update course C1" w
  /\ includes "User C1 is not authorized to update course C1" "C1" = true
  /\ includes "User C1 is not authorized to update course C1"
       (action_word DeleteCourse) = false
  /\ denied_with "User B1 is not authorized to upadte this bootcamp" w'
  /\ includes "User B1 is not authorized to upadte this bootcamp"
       (action_word UpdateBootcamp) = false.
Proof. split_and!; reflexivity. Qed.

(** The sibling [deleteBootcamp] names its action. *)
Example deleteBootcamp_denial_names_delete :
  let w := run (deleteBootcamp demo (demo_request [("id", "B1")] stranger)) demo_db in
  denied_with "User B1 is not authorized to delete this bootcamp" w
  /\ includes "User B1 is not authorized to delete this bootcamp"
       (action_word DeleteBootcamp) = true.
Proof. split; reflexivity. Qed.

(** ** Pagination *)

(** C8. For every valid descriptor with page [p] and limit [l], the executor
    returns at most [l] items, [previous] is present iff [p > 1], and [next]
    is present iff [p * l] is less than the number of matching documents. *)
Theorem execute_page {T} (q : Pagination.descriptor T) (coll : list T) :
  Pagination.valid q ->
  let pg := Pagination.execute q coll in
  length (Pagination.items pg) <= Pagination.limit q
  /\ Pagination.count pg = length (Pagination.items pg)
  /\ (is_Some (Pagination.previous pg) <-> 1 < Pagination.page q)
  /\ (is_Some (Pagination.next pg)
      <-> Pagination.page q * Pagination.limit q < Pagination.total q coll).
Proof.
  intros _. simpl. split_and!.
  - rewrite length_take. lia.
  - done.
  - destruct (Nat.ltb_spec 1 (Pagination.page q)); split; intros H';
      [lia | by eexists | by destruct H' | lia].
  - destruct (Nat.ltb_spec (Pagination.page q * Pagination.limit q)
                (Pagination.total q coll)); split; intros H';
      [lia | by eexists | by destruct H' | lia].
Qed.

Lemma execute_page_witness :
  let pg := Pagination.execute tuition_query tuitions in
  length (Pagination.items pg) <= Pagination.limit tuition_query
  /\ Pagination.count pg = length (Pagination.items pg)
  /\ (is_Some (Pagination.previous pg) <-> 1 < Pagination.page tuition_query)
  /\ (is_Some (Pagination.next pg)
      <-> Pagination.page tuition_query * Pagination.limit tuition_query
          < Pagination.total tuition_query tuitions).
Proof.
  apply (execute_page tuition_query tuitions). split; simpl; lia.
Defined.

(** The scenario of the specification: five matching items in decreasing
    order of tuition, page 2 with limit 2 gives the third and the fourth, with
    both [previous] and [next]. *)
Example second_page_of_five :
  let pg := Pagination.execute tuition_query tuitions in
  Pagination.total tuition_query tuitions = 5
  /\ Pagination.items pg = [3000; 2000]
  /\ Pagination.previous pg
     = Some {| Pagination.ref_page := 1; Pagination.ref_limit := 2 |}
  /\ Pagination.next pg
     = Some {| Pagination.ref_page := 3; Pagination.ref_limit := 2 |}.
Proof. split_and!; reflexivity. Qed.

(** * Further properties of the controllers and of the routers *)

Ltac unfold_reader :=
  unfold by_id_handlers, bootcamp_handlers, read_handlers, controller,
    getBootcamps, getBootcamp, getCourses, find_where, send;
  unfold_handler.

Lemma cast_id_string E id : is_object_id E id = true -> cast_id E (VString id) = Some (Some id).
Proof. intros H. unfold cast_id. by rewrite H. Qed.

Lemma cast_id_error E id : is_object_id E id = false -> cast_id E (VString id) = None.
Proof. intros H. unfold cast_id. by rewrite H. Qed.

Lemma param_string (req : request) k id :
  params req !! k = Some id -> param req k = VString id.
Proof. intros H. unfold param. by rewrite H. Qed.

(** ** Reading one bootcamp *)

(** X1. [getBootcamp], for an id that the ODM accepts, answers once and reads
    only: 200 with a bootcamp of the store that has this id when there is
    one, and the [NotFoundException] alone when there is none. *)
Theorem getBootcamp_answer E req d id :
  params req !! "id" = Some id ->
  is_object_id E id = true ->
  let w := run (getBootcamp E req) d in
  db w = d
  /\ calls w = [FindById Bootcamp (VString id)]
  /\ ((exists b, b ∈ bootcamps d /\ to_string (field b "_id") = id
                 /\ trace w = [Json {| status := 200; success := true; count := None;
                                       data := PDoc b |}])
      \/ (absent Bootcamp id d
          /\ trace w = [Next (NotFoundException (VString id))])).
Proof.
  intros Hid Hoid. apply param_string in Hid. apply (cast_id_string E) in Hoid.
  cbv zeta. unfold_reader. rewrite Hid. simpl. rewrite Hoid. simpl.
  destruct (List.find (has_id id) (bootcamps d)) as [b|] eqn:Hfind; simpl.
  - split_and!; [done|done|]. left. exists b.
    pose proof (find_has_id _ _ _ Hfind). apply find_some in Hfind as [Hin _].
    split_and!; [by apply list_elem_of_In | done | done].
  - split_and!; [done|done|]. right. split; [|done].
    intros x Hx. rewrite find_is_None in Hfind. apply Hfind in Hx.
    by apply String.eqb_neq in Hx.
Qed.

Lemma getBootcamp_answer_witness :
  let req := demo_request [("id", "B1")] stranger in
  let w := run (getBootcamp demo req) demo_db in
  db w = demo_db
  /\ calls w = [FindById Bootcamp (VString "B1")]
  /\ ((exists b, b ∈ bootcamps demo_db /\ to_string (field b "_id") = "B1"
                 /\ trace w = [Json {| status := 200; success := true; count := None;
                                       data := PDoc b |}])
      \/ (absent Bootcamp "B1" demo_db
          /\ trace w = [Next (NotFoundException (VString "B1"))])).
Proof.
  apply (getBootcamp_answer demo (demo_request [("id", "B1")] stranger) demo_db "B1");
    reflexivity.
Defined.

(** ** Identifiers that no document has *)

(** X2. The three mutating handlers of the bootcamp controller stop at an id
    that no bootcamp has: whoever asks, and whatever the body and the files,
    the only answer is the [NotFoundException] and nothing is written. *)
Theorem bootcamp_mutation_absent E op req d id :
  op = UpdateBootcamp \/ op = DeleteBootcamp \/ op = BootcampPhotoUpload ->
  params req !! "id" = Some id ->
  is_object_id E id = true ->
  absent Bootcamp id d ->
  run (handler E op req) d
  = {| db := d; calls := [FindById Bootcamp (VString id)];
       trace := [Next (NotFoundException (VString id))] |}.
Proof.
  intros Hop Hid Hoid Habs. apply param_string in Hid.
  apply (cast_id_string E) in Hoid.
  pose proof (find_absent Bootcamp id d Habs) as Hfind. simpl in Hfind.
  destruct Hop as [-> | [-> | ->]]; unfold_handler; rewrite Hid; simpl;
    rewrite Hoid; simpl; rewrite Hfind; reflexivity.
Qed.

Lemma bootcamp_mutation_absent_witness :
  run (handler demo DeleteBootcamp (demo_request [("id", "B7")] root)) demo_db
  = {| db := demo_db; calls := [FindById Bootcamp (VString "B7")];
       trace := [Next (NotFoundException (VString "B7"))] |}.
Proof.
  apply (bootcamp_mutation_absent demo DeleteBootcamp
           (demo_request [("id", "B7")] root) demo_db "B7");
    [by right; left | reflexivity | reflexivity |].
  intros x Hx. apply list_elem_of_In in Hx. simpl in Hx.
  destruct Hx as [<-|[]]. vm_compute. discriminate.
Defined.



(** ** Identifiers that the ODM cannot cast *)

(** X4. When the [id] of the route is not an identifier for the ODM, the
    lookup rejects and every handler that reads by id (and [addCourse], for
    its [bootcampId]) answers with the [BadRequestException] without a
    message, once, and writes nothing. *)
Theorem cast_error_is_bad_request E req d id :
  is_object_id E id = false ->
  let bad w :=
    db w = d /\ read_only w /\ trace w = [Next (BadRequestException None)] in
  (params req !! "id" = Some id ->
   Forall (fun h => bad (run (h req) d)) (by_id_handlers E))
  /\ (params req !! "bootcampId" = Some id -> bad (run (addCourse E req) d)).
Proof.
  intros Hoid. apply (cast_id_error E) in Hoid. cbv zeta.
  split; intros Hid; apply param_string in Hid.
  - unfold by_id_handlers. repeat apply Forall_cons_2; [..|apply Forall_nil_2].
    all: unfold_reader; rewrite Hid; simpl; rewrite Hoid; simpl.
    all: split_and!; [done | by apply read_only_iff | done].
  - unfold_handler. rewrite Hid. simpl. rewrite Hoid. simpl.
    split_and!; [done | by apply read_only_iff | done].
Qed.

Lemma cast_error_is_bad_request_witness :
  let req := demo_request [("id", "not-an-id"); ("bootcampId", "not-an-id")] root in
  let bad w :=
    db w = demo_db /\ read_only w /\ trace w = [Next (BadRequestException None)] in
  (params req !! "id" = Some "not-an-id" ->
   Forall (fun h => bad (run (h req) demo_db)) (by_id_handlers demo))
  /\ (params req !! "bootcampId" = Some "not-an-id" ->
      bad (run (addCourse demo req) demo_db)).
Proof.
  apply (cast_error_is_bad_request demo
           (demo_request [("id", "not-an-id"); ("bootcampId", "not-an-id")] root)
           demo_db "not-an-id").
  reflexivity.
Defined.

(** ** Deleting *)

Lemma elem_of_filter_out s (l : list obj) x :
  x ∈ List.filter (fun y => negb (has_id s y)) l
  <-> x ∈ l /\ to_string (field x "_id") <> s.
Proof.
  rewrite !list_elem_of_In, filter_In, negb_true_iff.
  unfold has_id. by rewrite String.eqb_neq.
Qed.

Lemma find_filter_out s (l : list obj) :
  List.find (has_id s) (List.filter (fun y => negb (has_id s y)) l) = None.
Proof.
  apply find_is_None. intros x Hx. apply elem_of_filter_out in Hx as [_ Hx].
  by apply String.eqb_neq.
Qed.

(** X5. When [deleteBootcamp] lets the principal through, it answers 200 with
    [{}]; the bootcamps that are left are those of another id, in the same
    order, and a [getBootcamp] of the same id is then answered with the
    [NotFoundException] alone. *)
Theorem deleteBootcamp_removes E req d U R :
  user req = Some U ->
  fetched E DeleteBootcamp req d = Some R ->
  p_role U = "admin" \/ field R "user" = VString (p_id U) ->
  let w := run (deleteBootcamp E req) d in
  let r := to_string (field R "_id") in
  trace w = [Json {| status := 200; success := true; count := None; data := PEmpty |}]
  /\ bootcamps (db w) = List.filter (fun x => negb (has_id r x)) (bootcamps d)
  /\ (forall x, x ∈ bootcamps (db w) <-> x ∈ bootcamps d /\ to_string (field x "_id") <> r)
  /\ trace (run (getBootcamp E req) (db w)) = [Next (NotFoundException (VString r))].
Proof.
  intros HU HR Hgate. pose proof (fetched_id E _ req _ d R HR) as Hid. simpl in Hid.
  apply lookup_id_Some in HR as (s & Hc & Hf). simpl in Hc, Hf.
  pose proof (find_has_id _ _ _ Hf) as Hs. apply gate_spec in Hgate.
  cbv zeta. unfold_reader. unfold user_id, user_role. rewrite HU. simpl.
  rewrite Hc. simpl. rewrite Hf, Hgate. simpl. rewrite Hs.
  split_and!; [done | done | intros x; apply elem_of_filter_out |].
  rewrite ?Hc. simpl. rewrite find_filter_out. simpl. by rewrite ?Hid, ?Hs.
Qed.

Lemma deleteBootcamp_removes_witness :
  let req := demo_request [("id", "B1")] owner in
  let w := run (deleteBootcamp demo req) demo_db in
  let r := to_string (field B1 "_id") in
  trace w = [Json {| status := 200; success := true; count := None; data := PEmpty |}]
  /\ bootcamps (db w) = List.filter (fun x => negb (has_id r x)) (bootcamps demo_db)
  /\ (forall x, x ∈ bootcamps (db w)
                <-> x ∈ bootcamps demo_db /\ to_string (field x "_id") <> r)
  /\ trace (run (getBootcamp demo req) (db w)) = [Next (NotFoundException (VString r))].
Proof.
  apply (deleteBootcamp_removes demo (demo_request [("id", "B1")] owner) demo_db owner B1);
    [reflexivity | reflexivity | right; reflexivity].
Defined.


(** ** Updating *)




(** The owner of [B1] gives it to [U2], and is then refused its own former
    bootcamp. *)
Example owner_gives_bootcamp_away :
  let give := with_body {["user" := VString "U2"]} (demo_request [("id", "B1")] owner) in
  let w := run (updateBootcamp demo give) demo_db in
  (fun b => field b "user") <$> bootcamps (db w) = [VString "U2"]
  /\ trace (run (updateBootcamp demo give) (db w))
     = [Next (InvalidCredentialException
                "User B1 is not authorized to upadte this bootcamp")].
Proof. split; reflexivity. Qed.

(** ** Adding a course *)











Lemma truthy_string s : truthy (VString s) = true <-> s <> EmptyString.
Proof. simpl. by rewrite negb_true_iff, String.eqb_neq. Qed.




(** ** One bootcamp per publisher *)

Lemma owned_count_app u bs b d d' :
  bootcamps d = bs -> bootcamps d' = (bs ++ [b])%list ->
  owned_count u d'
  = owned_count u d + (if same_id (field b "user") (VString (p_id u)) then 1 else 0).
Proof.
  intros H H'. unfold owned_count. rewrite H, H', List.filter_app, length_app. simpl.
  by destruct (same_id _ _).
Qed.

Lemma owned_count_zero u d :
  List.find (matches {["user" := VString (p_id u)]}) (bootcamps d) = None ->
  owned_count u d = 0.
Proof.
  intros H. unfold owned_count. rewrite find_is_None in H.
  induction (bootcamps d) as [|b l IH]; [done|]. simpl.
  pose proof (H b ltac:(left)) as Hb. rewrite matches_user in Hb. rewrite Hb.
  apply IH. intros x Hx. apply H. by right.
Qed.

(** The owner of a created bootcamp is the principal that created it, or
    nobody when the schema has no [user] path. *)
Lemma created_owner_other sch r r' hex (b : obj) uid vid :
  vid <> uid ->
  same_id (field (<["_id" := VObjectId r hex]>
                    (cast_paths (object_ids sch) r'
                       (strict sch (<["user" := VString uid]> b)))) "user")
          (VString vid) = false.
Proof.
  intros Hne. unfold field. rewrite lookup_insert_ne by done.
  assert (String.eqb uid vid = false) as Heq by (apply String.eqb_neq; congruence).
  destruct (cast_paths_lookup (object_ids sch) r'
              (strict sch (<["user" := VString uid]> b)) "user")
    as [->|(ro & so & _ & Hs & ->)].
  - rewrite strict_lookup. case_bool_decide; [|done].
    by rewrite lookup_insert_eq.
  - rewrite strict_lookup in Hs. case_bool_decide; [|done].
    rewrite lookup_insert_eq in Hs. injection Hs as <-. done.
Qed.

(** X10. [createBootcamp] keeps the rule of one bootcamp per publisher: when
    the principal is not an admin, it owns at most one bootcamp after the
    request if it owned at most one before, and the number of bootcamps of
    every other principal is unchanged. *)
Theorem createBootcamp_keeps_singleton E req d U V :
  user req = Some U ->
  p_role U <> "admin" ->
  let w := run (createBootcamp E req) d in
  (owned_count U d <= 1 -> owned_count U (db w) <= 1)
  /\ (p_id V <> p_id U -> owned_count V (db w) = owned_count V d).
Proof.
  intros HU Hrole. pose proof (role_test (p_role U)) as Hadmin.
  assert (strict_neq (VString (p_role U)) admin = true) as Hr.
  { destruct (strict_neq (VString (p_role U)) admin); [done|].
    exfalso. by apply Hrole, Hadmin. }
  cbv zeta. unfold_handler. unfold user_id, user_role. rewrite HU. simpl.
  destruct (List.find _ (bootcamps d)) as [b|] eqn:Hfind; simpl.
  - rewrite Hr. simpl. done.
  - apply owned_count_zero in Hfind.
    destruct (validate E (BootcampSchema E) _) eqn:Hv; simpl; [|done].
    split.
    + intros _. erewrite owned_count_app; [|reflexivity|reflexivity].
      rewrite Hfind. destruct (same_id _ _); lia.
    + intros Hne. erewrite owned_count_app; [|reflexivity|reflexivity].
      rewrite created_owner_other by done. lia.
Qed.

Lemma createBootcamp_keeps_singleton_witness :
  let req := with_body {["name" := VString "First"]} (demo_request [] stranger) in
  let w := run (createBootcamp demo req) demo_db in
  (owned_count stranger demo_db <= 1 -> owned_count stranger (db w) <= 1)
  /\ (p_id owner <> p_id stranger -> owned_count owner (db w) = owned_count owner demo_db).
Proof.
  apply (createBootcamp_keeps_singleton demo
           (with_body {["name" := VString "First"]} (demo_request [] stranger))
           demo_db stranger owner); [reflexivity | discriminate].
Defined.

(** The rule is not kept by [updateBootcamp]: [U2] creates a bootcamp, then
    the owner of [B1] names [U2] as the owner of [B1]. *)
Example update_breaks_singleton :
  let d1 := db (run (createBootcamp demo
                       (with_body {["name" := VString "First"]} (demo_request [] stranger)))
                  demo_db) in
  let d2 := db (run (updateBootcamp demo
                       (with_body {["user" := VString "U2"]}
                          (demo_request [("id", "B1")] owner))) d1) in
  owned_count stranger d1 = 1 /\ owned_count stranger d2 = 2.
Proof. split; reflexivity. Qed.

(** ** The answers of the radius search *)


(** ** The courses of a bootcamp *)

Lemma matches_singleton k v b : matches {[k := v]} b = same_id (field b k) v.
Proof.
  unfold matches. rewrite map_to_list_singleton. simpl. apply andb_true_r.
Qed.

(** X11. [getCourses] with the [bootcampId] of a route, when the ODM accepts
    it: the answer is 200 with the courses of the store whose [bootcamp] is
    that id, each of them and no other, in the order of the store, and their
    number as [count]; the result of the pagination middleware is not used.
    Nothing is written. *)
Theorem getCourses_of_bootcamp E results req d id :
  params req !! "bootcampId" = Some id ->
  id <> EmptyString ->
  is_object_id E id = true ->
  let w := run (getCourses E results req) d in
  let found :=
    List.filter (fun c => same_id (field c "bootcamp") (VString id)) (courses d) in
  trace w = [Json {| status := 200; success := true; count := Some (length found);
                     data := PDocs found |}]
  /\ (forall c, c ∈ found
                <-> c ∈ courses d /\ same_id (field c "bootcamp") (VString id) = true)
  /\ db w = d.
Proof.
  intros Hid Hne Hoid. apply param_string in Hid. apply truthy_string in Hne.
  pose proof (cast_id_string E id Hoid) as Hcast.
  cbv zeta. unfold_reader. rewrite Hid, Hne. simpl.
  unfold castable, field. rewrite lookup_singleton_eq.
  rewrite !lookup_singleton_ne by done. simpl. rewrite Hcast. simpl.
  erewrite (filter_ext (matches _)); [|intros c; apply matches_singleton].
  split_and!; [done| |done].
  intros c. by rewrite !list_elem_of_In, filter_In.
Qed.

Lemma getCourses_of_bootcamp_witness :
  let req := demo_request [("bootcampId", "B1")] stranger in
  let w := run (getCourses demo page_of_results req) demo_db in
  let found :=
    List.filter (fun c => same_id (field c "bootcamp") (VString "B1")) (courses demo_db) in
  trace w = [Json {| status := 200; success := true; count := Some (length found);
                     data := PDocs found |}]
  /\ (forall c, c ∈ found
                <-> c ∈ courses demo_db
                    /\ same_id (field c "bootcamp") (VString "B1") = true)
  /\ db w = demo_db.
Proof.
  apply (getCourses_of_bootcamp demo page_of_results
           (demo_request [("bootcampId", "B1")] stranger) demo_db "B1");
    [reflexivity | discriminate | reflexivity].
Defined.


(** ** The routers *)

Lemma match_route_method r mth path ps :
  match_route r mth path = Some ps -> r_method r = mth.
Proof.
  unfold match_route. destruct (r_method r), mth; simpl; done.
Qed.

Lemma dispatch_routes_in rs inherited mth path r ps :
  dispatch_routes rs inherited mth path = Some (r, ps) ->
  r ∈ rs /\ r_method r = mth.
Proof.
  induction rs as [|r0 rs IH]; simpl; [done|].
  destruct (match_route r0 mth path) as [ps0|] eqn:Hm.
  - intros [= <- <-]. split; [left | by eapply match_route_method].
  - intros H. destruct (IH H). split; [by right | done].
Qed.

Lemma dispatch_in es mth path r ps :
  dispatch es mth path = Some (r, ps) ->
  r ∈ routes_of es /\ r_method r = mth.
Proof.
  unfold routes_of. induction es as [|[r0|prefix sub] es IH]; simpl; [done| |].
  - destruct (match_route r0 mth path) as [ps0|] eqn:Hm.
    + intros [= <- <-]. split; [left | by eapply match_route_method].
    + intros H. destruct (IH H). split; [by right | done].
  - destruct (match_prefix prefix path) as [[ps0 rest]|]; simpl.
    + destruct (dispatch_routes sub ps0 mth rest) as [hit|] eqn:Hsub.
      * intros [= ->]. apply dispatch_routes_in in Hsub as [Hin Hm].
        split; [|done]. apply elem_of_app. by left.
      * intros H. destruct (IH H). split; [|done]. apply elem_of_app. by right.
    + intros H. destruct (IH H). split; [|done]. apply elem_of_app. by right.
Qed.

(** X12. Every request that the router of the bootcamps (the router of the
    courses that it mounts included), or the router of the courses on its own,
    gives to a handler, and whose method is not [GET], has gone through
    [protect] and [authorize('publisher', 'admin')], in this order, and
    through nothing else; a [GET] goes through neither. *)
Theorem mutating_routes_are_guarded mth path inherited r ps :
  dispatch bootcampRoute mth path = Some (r, ps)
  \/ dispatch_routes courseRoute inherited mth path = Some (r, ps) ->
  (mth <> GET -> r_chain r = guard)
  /\ (mth = GET ->
      (protect ∉ r_chain r) /\ (forall roles, authorize roles ∉ r_chain r)).
Proof.
  intros H.
  assert (r ∈ routes_of bootcampRoute /\ r_method r = mth) as [Hin <-].
  { destruct H as [H|H]; [by apply dispatch_in in H|].
    apply dispatch_routes_in in H as [Hin Hm]. split; [|done].
    change (routes_of bootcampRoute)
      with (courseRoute ++ routes_of (tail bootcampRoute))%list.
    apply elem_of_app. by left. }
  assert (Forall (fun r => (r_method r <> GET -> r_chain r = guard)
                           /\ (r_method r = GET ->
                               (protect ∉ r_chain r)
                               /\ (forall roles, authorize roles ∉ r_chain r)))
            (routes_of bootcampRoute)) as Hall.
  { unfold routes_of, bootcampRoute, courseRoute. simpl.
    repeat apply Forall_cons_2; [..|apply Forall_nil_2]; simpl;
      (split; [try done | try done]); intros _;
      (split; [|intros roles]); intros Hx;
        repeat (apply elem_of_cons in Hx as [Hx|Hx]; [done|]);
        by apply elem_of_nil in Hx. }
  rewrite Forall_forall in Hall. by apply Hall.
Qed.

Lemma mutating_routes_are_guarded_witness :
  let r := {| r_method := DELETE; r_path := [Par "id"]; r_chain := guard;
              r_handler := DeleteCourseAt |} in
  (DELETE <> GET -> r_chain r = guard)
  /\ (DELETE = GET ->
      (protect ∉ r_chain r) /\ (forall roles, authorize roles ∉ r_chain r)).
Proof.
  apply (mutating_routes_are_guarded DELETE ["B1"; "Courses"; "C1"] ∅ _
           (list_to_map [("id", "C1"); ("bootcampId", "B1")])).
  left. vm_compute. reflexivity.
Defined.

Ltac split_route H :=
  repeat (unfold match_route, mbind, option_bind in H; simpl in H;
          match type of H with
          | context [if ?b then _ else _] => destruct b eqn:?
          | None = Some _ => discriminate H
          end).

(** X13. Whatever the path, the router of the bootcamps gives a request to a
    handler only with the parameters that the handler reads, each bound to a
    segment of the path that is not empty; the one exception is [addCourse],
    which reads an [id] that its route does not have. *)
Theorem route_binds_parameters mth path r ps k :
  dispatch bootcampRoute mth path = Some (r, ps) ->
  k ∈ reads (r_handler r) ->
  (exists v, ps !! k = Some v /\ v ∈ path /\ v <> EmptyString)
  \/ (r_handler r = AddCourseAt /\ k = "id" /\ ps !! k = None).
Proof.
  intros H Hk.
  destruct mth; destruct path as [|a [|b [|c [|e rest]]]];
    unfold bootcampRoute, courseRoute in H; simpl in H; split_route H;
    try discriminate H;
    unfold match_route, mbind, option_bind in H; simpl in H;
    injection H as <- <-; simpl in Hk;
    repeat (apply elem_of_cons in Hk as [->|Hk]);
    try (by apply elem_of_nil in Hk);
    first
      [ right; split_and!; reflexivity
      | left; eexists; split_and!;
        [ reflexivity
        | apply list_elem_of_In; simpl; tauto
        | by apply String.eqb_neq ] ].
Qed.

Lemma route_binds_parameters_witness :
  (exists v, ({["id" := "C1"]} ∪ {["bootcampId" := "B1"]} : gmap string string) !! "id"
             = Some v
             /\ v ∈ ["B1"; "courses"; "C1"] /\ v <> EmptyString)
  \/ (UpdateCourseAt = AddCourseAt /\ "id" = "id"
      /\ ({["id" := "C1"]} ∪ {["bootcampId" := "B1"]} : gmap string string) !! "id"
         = None).
Proof.
  apply (route_binds_parameters PUT ["B1"; "courses"; "C1"]
           {| r_method := PUT; r_path := [Par "id"]; r_chain := guard;
              r_handler := UpdateCourseAt |}
           ({["id" := "C1"]} ∪ {["bootcampId" := "B1"]}) "id").
  - vm_compute. reflexivity.
  - simpl. left.
Defined.


(** ** Requests without a principal *)

(** X14. A request that carries no principal is refused by each of the six
    mutating handlers on every resource that it finds and that has an owner:
    the only answer is the [InvalidCredentialException], and nothing is
    written. *)
Theorem no_principal_is_refused E op req d R :
  user req = None ->
  fetched E op req d = Some R ->
  field R "user" <> VUndefined ->
  let w := run (handler E op req) d in
  denied_with (denial_message op req (Some R)) w /\ db w = d /\ read_only w.
Proof.
  intros HU HR Hown. apply lookup_id_Some in HR as (s & Hc & Hf).
  assert (strict_neq (field R "user") VUndefined = true) as Hneq
    by (by destruct (field R "user")).
  cbv zeta. unfold denied_with.
  destruct op; simpl in Hc, Hf |- *; unfold_handler; unfold user_id, user_role;
    rewrite HU; simpl; rewrite Hc; simpl; rewrite Hf; simpl; rewrite Hneq; simpl;
    (split_and!; [done | done | by apply read_only_iff]).
Qed.

Lemma no_principal_is_refused_witness :
  let req := request_of {["id" := "B1"]} None {["name" := VString "Taken"]} in
  let w := run (handler demo UpdateBootcamp req) demo_db in
  denied_with (denial_message UpdateBootcamp req (Some B1)) w
  /\ db w = demo_db /\ read_only w.
Proof.
  apply (no_principal_is_refused demo UpdateBootcamp
           (request_of {["id" := "B1"]} None {["name" := VString "Taken"]}) demo_db B1);
    [reflexivity | reflexivity | discriminate].
Defined.

(** ** Edges of the photo upload *)


(** X15. When [max_file_upload] is not configured, or is not a number, the
    photo upload has no limit of size: an image is never rejected, whatever
    its size. *)
Theorem upload_without_limit E req d U R f :
  user req = Some U ->
  fetched E BootcampPhotoUpload req d = Some R ->
  p_role U = "admin" \/ field R "user" = VString (p_id U) ->
  asset req = Some f ->
  startsWith (f_mimetype f) "image" = true ->
  parseInt (to_string (max_file_upload E)) = None ->
  let w := run (bootcampPhotoUpload E req) d in
  ~ rejected w
  /\ Mv (to_string (file_upload_path E) +:+ "/" +:+ "photo_"
           +:+ to_string (field R "_id") +:+ path_ext E (f_name f)) ∈ calls w.
Proof.
  intros HU HR Hgate Hasset Hmime Hmax.
  apply lookup_id_Some in HR as (s & Hc & Hf). simpl in Hc, Hf.
  apply gate_spec in Hgate.
  unfold asset in Hasset. destruct (files req) as [fs|] eqn:Hfiles; [|done].
  simpl in Hasset. cbv zeta.
  unfold_handler. unfold user_id, user_role, gt_number. rewrite HU. simpl.
  rewrite Hc. simpl. rewrite Hf, Hgate, Hfiles. simpl. rewrite Hasset. simpl.
  rewrite Hmime, Hmax. simpl.
  evaluate.
  all: split; [intros (msg & Hmsg); discriminate Hmsg | by right; left].
Qed.


Lemma upload_without_limit_witness :
  let E := demo_with VUndefined false in
  let req := with_file (png 5000) (demo_request [("id", "B1")] owner) in
  let w := run (bootcampPhotoUpload E req) demo_db in
  ~ rejected w
  /\ Mv (to_string (file_upload_path E) +:+ "/" +:+ "photo_"
           +:+ to_string (field B1 "_id") +:+ path_ext E (f_name (png 5000))) ∈ calls w.
Proof.
  apply (upload_without_limit (demo_with VUndefined false)
           (with_file (png 5000) (demo_request [("id", "B1")] owner))
           demo_db owner B1 (png 5000));
    [reflexivity | reflexivity | right; reflexivity | reflexivity | reflexivity
    | reflexivity].
Defined.

(** ** How many answers *)

(** X16. Every handler of the bootcamp controller answers at most once, for
    every request and every store: one call of [next] or one response; all of
    them but the photo upload answer exactly once. *)
Theorem bootcamp_controller_answers_once E results :
  Forall (fun h => forall req d, length (trace (run (h req) d)) <= 1)
    (bootcamp_handlers E results)
  /\ Forall (fun h => forall req d, length (trace (run (h req) d)) = 1)
       [getBootcamps results; getBootcamp E; createBootcamp E; updateBootcamp E;
        deleteBootcamp E; getBootcampsInRadius E].
Proof.
  split; unfold bootcamp_handlers;
    repeat apply Forall_cons_2; try apply Forall_nil_2; intros req d;
    unfold_reader; evaluate; (reflexivity || lia).
Qed.

(** X18. The handlers that serve a [GET] never write: for every request and
    every store, the database is unchanged and no writing call is made. *)
Theorem read_handlers_never_write E results :
  Forall (fun h => forall req d,
            db (run (h req) d) = d /\ read_only (run (h req) d))
    (read_handlers E results).
Proof.
  unfold read_handlers.
  repeat apply Forall_cons_2; try apply Forall_nil_2; intros req d;
    unfold_reader; evaluate; (split; [reflexivity | by apply read_only_iff]).
Qed.

(** X17. Each handler of the course controller that looks a document up
    answers once or twice, for every request and every store; it answers
    twice exactly when the ODM accepts the id and no document has it, and the
    first of the two answers is then the [NotFoundException] of that id. *)
Theorem course_controller_answers_twice E :
  Forall (fun hmk =>
            forall req d,
              let t := trace (run (hmk.1.1 req) d) in
              let id := param req hmk.2 in
              (length t = 1 \/ exists e, t = [Next (NotFoundException id); e])
              /\ (length t = 2
                  <-> exists s, cast_id E id = Some s
                                /\ (s ≫= fun x => List.find (has_id x)
                                                    (collection hmk.1.2 d)) = None))
    (course_lookups E).
Proof.
  unfold course_lookups.
  repeat apply Forall_cons_2; try apply Forall_nil_2; intros req d;
    cbn [fst snd collection]; cbv zeta.
  all: destruct (cast_id E (param req _)) as [[s|]|] eqn:Hcast.
  all: try destruct (List.find (has_id s) _) as [c|] eqn:Hfind.
  all: unfold_reader; evaluate.
  all: split; [first [by left | right; by eexists]|].
  all: split;
    [ intros Hlen; first [discriminate Hlen | eexists; split; [reflexivity|]]
    | intros (s' & Hs' & Hn); simplify_eq/= ];
    try done.
  all: simpl; destruct (List.find (has_id s) _); simpl in *; done.
Qed.

